(** * Dangel: the PDF offer pipeline of [pdf_generator.py]

    A shallow embedding of the value formatter, the salutation generator,
    the offer-number counter, the cost and simulation tables, the chart
    gallery and the appendix merge of [pdf_generator.py], with the
    properties of the specification stated and settled against it.

    Conventions of the embedding.
    - A Python [str] and a Python [bytes] are both a [string], read as a
      sequence of 8-bit characters (the UTF-8 encoding for text).  The
      case, whitespace and digit functions act on the ASCII range.
    - A Python [float] is a [spec_float] of the binary64 format.
    - A [dict] that is only looked up and updated by key is a [gmap]; a
      literal table that is iterated in order is a [list].
    - A call that can raise returns a [result]; code that also mutates a
      store is a function from the store to a [result] and the new store.
    - Library calls whose outcome the repository does not determine (the
      float parser, [repr] of a container, the PDF reader and writer, the
      image decoder, the markup parser of [Paragraph], the file system,
      the settings store) are the fields of the classes [PyBuiltins],
      [SettingsStore], [MarkupParser], [ImageLib] and [PdfEnv]; every
      property holds for all their instances. *)

From Stdlib Require Import ZArith Ascii String List Bool Lia.
From Stdlib Require Import Numbers.DecimalString Numbers.DecimalZ Numbers.DecimalFacts.
From Stdlib Require Import Floats.SpecFloat.
From stdpp Require Import base option list strings gmap.

Set Default Proof Using "Type".

(** ** Python values, exceptions and results *)

#[warnings="-register-all"]
Inductive pyval :=
| VNone
| VBool (b : bool)
| VInt (z : Z)
| VFloat (f : spec_float)
| VStr (s : string)
| VBytes (b : string)
| VList (l : list pyval).

Inductive exn :=
| TypeError
| ValueError
| OverflowError
| KeyError
| IndexError
| OSError.

Inductive result (A : Type) :=
| Ok (a : A)
| Raise (e : exn).
Arguments Ok {A} a.
Arguments Raise {A} e.

Definition rbind {A B} (r : result A) (k : A -> result B) : result B :=
  match r with
  | Ok a => k a
  | Raise e => Raise e
  end.

Notation "x <- r ;; k" := (rbind r (fun x => k))
  (at level 100, r at next level, right associativity, only parsing).

(** ** Strings *)

Module PyStr.

Definition code (c : ascii) : N := N_of_ascii c.

(** The characters [str.isspace] accepts below 128. *)
Definition is_space (c : ascii) : bool :=
  let n := code c in
  ((9 <=? n) && (n <=? 13) || (28 <=? n) && (n <=? 32))%N.

Definition is_upper (c : ascii) : bool :=
  let n := code c in ((65 <=? n) && (n <=? 90))%N.

Definition is_lower (c : ascii) : bool :=
  let n := code c in ((97 <=? n) && (n <=? 122))%N.

Definition is_digit (c : ascii) : bool :=
  let n := code c in ((48 <=? n) && (n <=? 57))%N.

Definition to_lower (c : ascii) : ascii :=
  if is_upper c then ascii_of_N (code c + 32) else c.

Definition to_upper (c : ascii) : ascii :=
  if is_lower c then ascii_of_N (code c - 32) else c.

Fixpoint lower (s : string) : string :=
  match s with
  | EmptyString => EmptyString
  | String c r => String (to_lower c) (lower r)
  end.

Fixpoint upper (s : string) : string :=
  match s with
  | EmptyString => EmptyString
  | String c r => String (to_upper c) (upper r)
  end.

(** [str.title]: a cased character is upper-cased when the character
    before it is not cased, and lower-cased otherwise. *)
Fixpoint title_from (prev_cased : bool) (s : string) : string :=
  match s with
  | EmptyString => EmptyString
  | String c r =>
      String (if prev_cased then to_lower c else to_upper c)
             (title_from (is_upper c || is_lower c) r)
  end.

Definition title (s : string) : string := title_from false s.

Fixpoint lstrip (s : string) : string :=
  match s with
  | EmptyString => EmptyString
  | String c r => if is_space c then lstrip r else s
  end.

Fixpoint rstrip (s : string) : string :=
  match s with
  | EmptyString => EmptyString
  | String c r =>
      match rstrip r with
      | EmptyString => if is_space c then EmptyString else String c EmptyString
      | r' => String c r'
      end
  end.

Definition strip (s : string) : string := rstrip (lstrip s).

Definition is_empty (s : string) : bool :=
  match s with EmptyString => true | _ => false end.

Fixpoint drop (n : nat) (s : string) : string :=
  match n, s with
  | O, _ => s
  | S n', EmptyString => EmptyString
  | S n', String _ r => drop n' r
  end.

(** [s.replace(old, new)] for a non-empty [old]: the leftmost
    occurrences, not overlapping.  [skip] counts the characters of a
    matched occurrence that are still to be passed over. *)
Fixpoint replace_from (skip : nat) (old new s : string) : string :=
  match s with
  | EmptyString => EmptyString
  | String c r =>
      match skip with
      | S k => replace_from k old new r
      | O =>
          if String.prefix old s
          then new +:+ replace_from (String.length old - 1) old new r
          else String c (replace_from 0 old new r)
      end
  end.

Definition replace (old new s : string) : string :=
  if is_empty old then s else replace_from 0 old new s.

Fixpoint contains_char (c : ascii) (s : string) : bool :=
  match s with
  | EmptyString => false
  | String d r => Ascii.eqb c d || contains_char c r
  end.

(** [s.rfind(c)] for a single character: the last index, or -1. *)
Fixpoint rfind_from (i : Z) (c : ascii) (s : string) : Z :=
  match s with
  | EmptyString => (-1)%Z
  | String d r =>
      let later := rfind_from (i + 1)%Z c r in
      if (0 <=? later)%Z then later
      else if Ascii.eqb c d then i else (-1)%Z
  end.

Definition rfind (c : ascii) (s : string) : Z := rfind_from 0 c s.

Fixpoint repeat (c : ascii) (n : nat) : string :=
  match n with
  | O => EmptyString
  | S k => String c (repeat c k)
  end.

(** [" ".join(parts)] *)
Fixpoint join (sep : string) (parts : list string) : string :=
  match parts with
  | [] => EmptyString
  | [p] => p
  | p :: rest => p +:+ sep +:+ join sep rest
  end.

Definition endswith (s suffix : string) : bool :=
  let n := String.length s in
  let k := String.length suffix in
  (k <=? n)%nat && String.eqb (drop (n - k) s) suffix.

End PyStr.

(** ** Integers as text *)

Module PyInt.

(** [str(z)] for an [int]. *)
Definition to_str (z : Z) : string := NilZero.string_of_int (Z.to_int z).

(** [f"{z:0{width}d}"]: the sign first, then zeros up to [width]
    characters in all. *)
Definition to_str_zero_padded (width : nat) (z : Z) : string :=
  let digits := NilZero.string_of_uint (N.to_uint (Z.abs_N z)) in
  let sign := if (z <? 0)%Z then "-" else "" in
  let used := (String.length sign + String.length digits)%nat in
  sign +:+ PyStr.repeat "0" (width - used) +:+ digits.

(** Digits that may carry single underscores between them. *)
Fixpoint digits_ok (after_digit : bool) (s : string) : bool :=
  match s with
  | EmptyString => after_digit
  | String c r =>
      if PyStr.is_digit c then digits_ok true r
      else if Ascii.eqb c "_" then after_digit && digits_ok false r
      else false
  end.

Fixpoint drop_underscores (s : string) : string :=
  match s with
  | EmptyString => EmptyString
  | String c r =>
      if Ascii.eqb c "_" then drop_underscores r
      else String c (drop_underscores r)
  end.

(** [int(s)] in base ten: surrounding whitespace, an optional sign, then
    digits.  [None] stands for the [ValueError]. *)
Definition of_str (s : string) : option Z :=
  let t := PyStr.strip s in
  let '(negative, body) :=
    match t with
    | EmptyString => (false, t)
    | String c r =>
        if Ascii.eqb c "-" then (true, r)
        else if Ascii.eqb c "+" then (false, r)
        else (false, t)
    end in
  if digits_ok false body then
    match NilEmpty.uint_of_string (drop_underscores body) with
    | Some u => Some (if negative then (- Z.of_uint u)%Z else Z.of_uint u)
    | None => None
    end
  else None.

End PyInt.

(** ** Floats *)

Module PyFloat.

Definition prec : Z := 53.
Definition emax : Z := 1024.

Definition isnan (f : spec_float) : bool :=
  match f with S754_nan => true | _ => false end.

Definition isinf (f : spec_float) : bool :=
  match f with S754_infinity _ => true | _ => false end.

Definition is_zero (f : spec_float) : bool :=
  match f with S754_zero _ => true | _ => false end.

(** [float(z)] for an [int]: the nearest binary64 value, ties to even;
    an [OverflowError] when that is out of range. *)
Definition of_int (z : Z) : result spec_float :=
  match binary_normalize prec emax z 0 false with
  | S754_infinity _ => Raise OverflowError
  | f => Ok f
  end.

(** [int(f)]: truncation toward zero. *)
Definition trunc (f : spec_float) : result Z :=
  match f with
  | S754_nan => Raise ValueError
  | S754_infinity _ => Raise OverflowError
  | S754_zero _ => Ok 0%Z
  | S754_finite s m e =>
      let a := if (0 <=? e)%Z then (Z.pos m * 2 ^ e)%Z
               else (Z.pos m / 2 ^ (- e))%Z in
      Ok (if s then (- a)%Z else a)
  end.

Definition round_half_even (num den : Z) : Z :=
  let q := (num / den)%Z in
  let r := (num mod den)%Z in
  if ((den <? 2 * r) || ((2 * r =? den) && Z.odd q))%Z then (q + 1)%Z else q.

(** The magnitude [m * 2^e] in units of [10^-precision], correctly
    rounded from the exact binary value. *)
Definition scaled (precision : nat) (m : positive) (e : Z) : Z :=
  let p10 := (10 ^ Z.of_nat precision)%Z in
  if (0 <=? e)%Z then (Z.pos m * 2 ^ e * p10)%Z
  else round_half_even (Z.pos m * p10) (2 ^ (- e)).

(** The [,] option of the format mini-language: groups of three digits. *)
Fixpoint group_thousands (s : string) : string :=
  match s with
  | EmptyString => EmptyString
  | String c r =>
      let k := String.length r in
      if ((0 <? k) && (k mod 3 =? 0))%nat
      then String c (String "," (group_thousands r))
      else String c (group_thousands r)
  end.

Definition render (grouping : bool) (precision : nat) (negative : bool) (q : Z)
  : string :=
  let p10 := (10 ^ Z.of_nat precision)%Z in
  let int_digits := PyInt.to_str (q / p10) in
  let frac_digits := PyInt.to_str_zero_padded precision (q mod p10) in
  (if negative then "-" else "")
  +:+ (if grouping then group_thousands int_digits else int_digits)
  +:+ (match precision with O => "" | S _ => "." +:+ frac_digits end).

(** [format(f, ",.{precision}f")] with [grouping], [format(f,
    ".{precision}f")] without. *)
Definition format_f (grouping : bool) (precision : nat) (f : spec_float)
  : string :=
  match f with
  | S754_nan => "nan"
  | S754_infinity s => if s then "-inf" else "inf"
  | S754_zero s => render grouping precision s 0
  | S754_finite s m e => render grouping precision s (scaled precision m e)
  end.

End PyFloat.

(** ** The library calls left open *)

Class PyBuiltins := {
  (** [float(s)] for a string; [None] is the [ValueError]. *)
  float_of_str : string -> option spec_float;
  (** [str(v)] for a float, a bytes object and a list. *)
  repr_other : pyval -> string;
  (** [template.format(val=v)] for a template other than the built-in
      years template. *)
  format_val_other : string -> pyval -> result string
}.

Section Formatting.
Context `{!PyBuiltins}.

Definition py_str (v : pyval) : string :=
  match v with
  | VNone => "None"
  | VBool b => if b then "True" else "False"
  | VInt z => PyInt.to_str z
  | VStr s => s
  | _ => repr_other v
  end.

(** [bool(v)] *)
Definition truthy (v : pyval) : bool :=
  match v with
  | VNone => false
  | VBool b => b
  | VInt z => negb (z =? 0)%Z
  | VFloat f => negb (PyFloat.is_zero f)
  | VStr s => negb (PyStr.is_empty s)
  | VBytes b => negb (PyStr.is_empty b)
  | VList l => match l with [] => false | _ => true end
  end.

(** [isinstance(v, (float, int))] together with [float(v)]: [None] when
    [v] is not a number. *)
Definition as_number (v : pyval) : option (result spec_float) :=
  match v with
  | VBool b => Some (PyFloat.of_int (Z.b2z b))
  | VInt z => Some (PyFloat.of_int z)
  | VFloat f => Some (Ok f)
  | _ => None
  end.

(** pdf_generator.py, lines 73-77.  [texts_dict] is a [dict] in every
    call of the module; [fallback_text_value] is [None] when omitted. *)
Definition get_text (texts_dict : gmap string string) (key : string)
    (fallback_text_value : option string) : string :=
  let fallback :=
    match fallback_text_value with
    | Some f => f
    | None => PyStr.title (PyStr.replace "_" " " key) +:+ " (PDF-Text fehlt)"
    end in
  default fallback (texts_dict !! key).

(** Lines 86-90: the separator that comes last is the decimal point. *)
Definition clean_number_string (value : string) : string :=
  let cleaned :=
    if PyStr.contains_char "." value && PyStr.contains_char "," value then
      if (PyStr.rfind "," value <? PyStr.rfind "." value)%Z
      then PyStr.replace "," "" value
      else if (PyStr.rfind "." value <? PyStr.rfind "," value)%Z
      then PyStr.replace "." "" value
      else value
    else value in
  PyStr.replace "," "." cleaned.

Definition years_default_template : string := "{val:.1f} Jahre".

(** [template.format(val=value)], line 96. *)
Definition format_years (template : string) (value : pyval) (f : spec_float)
  : result string :=
  if String.eqb template years_default_template
  then Ok (PyFloat.format_f false 1 f +:+ " Jahre")
  else format_val_other template value.

(** Lines 98-99. *)
Definition german_number (precision : nat) (f : spec_float) : string :=
  let formatted_num_en := PyFloat.format_f true precision f in
  PyStr.replace "#TEMP#" "."
    (PyStr.replace "." "," (PyStr.replace "," "#TEMP#" formatted_num_en)).

(** Lines 94-100, for a [value] that is a number with float value [f]. *)
Definition format_numeric (current_texts : gmap string string)
    (unit : string) (precision : nat) (value : pyval) (f : spec_float)
  : result string :=
  if PyFloat.isinf f
  then Ok (get_text current_texts "value_infinite" (Some "Nicht berechenbar"))
  else if String.eqb unit "Jahre"
  then format_years
         (get_text current_texts "years_format_string_pdf"
            (Some years_default_template)) value f
  else Ok (PyStr.strip (german_number precision f +:+ " " +:+ unit)).

(** pdf_generator.py, lines 79-101. *)
Definition format_kpi_value (value : pyval) (unit na_text_key : string)
    (precision : nat) (texts_dict : option (gmap string string))
  : result string :=
  let current_texts := default ∅ texts_dict in
  let na_text := get_text current_texts na_text_key (Some "k.A.") in
  match value with
  | VNone => Ok na_text
  | VStr s =>
      if String.eqb s na_text then Ok s
      else
        match float_of_str (clean_number_string s) with
        | None => Ok s
        | Some f => format_numeric current_texts unit precision (VFloat f) f
        end
  | _ =>
      match as_number value with
      | Some conv =>
          f <- conv ;;
          if PyFloat.isnan f then Ok na_text
          else format_numeric current_texts unit precision value f
      | None => Ok (py_str value)
      end
  end.

End Formatting.

(** The base-ten and general conversions [int(v)], [len(v)], [v[1:]]
    and [v == 0.0] on the modelled values. *)
Definition py_int (v : pyval) : result Z :=
  match v with
  | VNone => Raise TypeError
  | VBool b => Ok (Z.b2z b)
  | VInt z => Ok z
  | VFloat f => PyFloat.trunc f
  | VStr s | VBytes s =>
      match PyInt.of_str s with Some z => Ok z | None => Raise ValueError end
  | VList _ => Raise TypeError
  end.

Definition py_len (v : pyval) : result Z :=
  match v with
  | VStr s | VBytes s => Ok (Z.of_nat (String.length s))
  | VList l => Ok (Z.of_nat (length l))
  | _ => Raise TypeError
  end.

Definition py_slice_from_1 (v : pyval) : result pyval :=
  match v with
  | VStr s => Ok (VStr (PyStr.drop 1 s))
  | VBytes s => Ok (VBytes (PyStr.drop 1 s))
  | VList l => Ok (VList (tail l))
  | _ => Raise TypeError
  end.

Definition py_eq_zero (v : pyval) : bool :=
  match v with
  | VBool b => negb b
  | VInt z => (z =? 0)%Z
  | VFloat f => PyFloat.is_zero f
  | _ => false
  end.

(** [sep.join(parts)]: every part has to be a [str]. *)
Fixpoint py_join_parts (parts : list pyval) : result (list string) :=
  match parts with
  | [] => Ok []
  | VStr s :: rest => ss <- py_join_parts rest ;; Ok (s :: ss)
  | _ :: _ => Raise TypeError
  end.

Definition py_join (sep : string) (parts : list pyval) : result string :=
  ss <- py_join_parts parts ;; Ok (PyStr.join sep ss).

(** ** The salutation line *)

Section Salutation.
Context `{!PyBuiltins}.

(** [p and str(p).strip()] as a condition. *)
Definition has_text (p : pyval) : bool :=
  truthy p && negb (PyStr.is_empty (PyStr.strip (py_str p))).

(** pdf_generator.py, lines 269-296. *)
Definition _generate_complete_salutation_line
    (customer_data : gmap string pyval) (texts : gmap string string)
  : result string :=
  let salutation_value := default VNone (customer_data !! "salutation") in
  let title := default (VStr "") (customer_data !! "title") in
  let first_name := default (VStr "") (customer_data !! "first_name") in
  let last_name := default (VStr "") (customer_data !! "last_name") in
  let name_parts := List.filter has_text [title; first_name; last_name] in
  joined <- py_join " " name_parts ;;
  let customer_full_name_for_salutation := PyStr.strip joined in
  let generic :=
    get_text texts "salutation_generic_fallback"
      (Some "Sehr geehrte Damen und Herren,") in
  let by_name (salutation_key_base : string) :=
    let default_salutation_text :=
      get_text texts salutation_key_base (Some "Sehr geehrte/r") in
    if PyStr.is_empty customer_full_name_for_salutation then Ok generic
    else Ok (default_salutation_text +:+ " "
             +:+ customer_full_name_for_salutation +:+ ",") in
  match salutation_value with
  | VStr sal =>
      let sl_lower := PyStr.strip (PyStr.lower sal) in
      if String.eqb sl_lower "herr" then by_name "salutation_male_polite"
      else if String.eqb sl_lower "frau" then by_name "salutation_female_polite"
      else if String.eqb sl_lower "familie" then
        let fam_name :=
          if has_text last_name then last_name
          else default
                 (VStr (get_text texts "family_default_name_pdf" (Some "Familie")))
                 (customer_data !! "company_name") in
        Ok (get_text texts "salutation_family_polite" (Some "Sehr geehrte Familie")
            +:+ " " +:+ PyStr.strip (py_str fam_name) +:+ ",")
      else if String.eqb sl_lower "firma" then
        let company_name := default (VStr "") (customer_data !! "company_name") in
        let company_name_val :=
          if truthy company_name then company_name else last_name in
        if truthy company_name_val then
          Ok (get_text texts "salutation_company_polite"
                (Some "Sehr geehrte Damen und Herren der Firma")
              +:+ " " +:+ PyStr.strip (py_str company_name_val) +:+ ",")
        else Ok generic
      else by_name "salutation_polite"
  | _ => by_name "salutation_polite"
  end.

End Salutation.

(** ** The offer number *)

(** The reading of the clock that [datetime.now()] returns. *)
Record datetime := {
  dt_year : Z; dt_month : Z; dt_day : Z;
  dt_hour : Z; dt_minute : Z; dt_second : Z
}.

(** [now.strftime('%Y%m%d-%H%M%S')] *)
Definition strftime_Ymd_HMS (now : datetime) : string :=
  PyInt.to_str_zero_padded 4 (dt_year now)
  +:+ PyInt.to_str_zero_padded 2 (dt_month now)
  +:+ PyInt.to_str_zero_padded 2 (dt_day now)
  +:+ "-"
  +:+ PyInt.to_str_zero_padded 2 (dt_hour now)
  +:+ PyInt.to_str_zero_padded 2 (dt_minute now)
  +:+ PyInt.to_str_zero_padded 2 (dt_second now).

(** The two callables of the settings store, [load_admin_setting_func(key,
    default)] and [save_admin_setting_func(key, value)], acting on a store
    of type [S].  Either may raise. *)
Class SettingsStore (S : Type) := {
  load_admin_setting : string -> pyval -> S -> result pyval * S;
  save_admin_setting : string -> pyval -> S -> result pyval * S
}.

(** Code that runs against a store and may raise. *)
Definition Eff (S A : Type) : Type := S -> result A * S.

Definition eret {S A} (a : A) : Eff S A := fun s => (Ok a, s).

Definition ebind {S A B} (m : Eff S A) (k : A -> Eff S B) : Eff S B :=
  fun s =>
    match m s with
    | (Ok a, s') => k a s'
    | (Raise e, s') => (Raise e, s')
    end.

Definition elift {S A} (r : result A) : Eff S A := fun s => (r, s).

(** [try: body / except Exception: handler] *)
Definition try_except {S A} (body : Eff S A) (handler : Eff S A) : Eff S A :=
  fun s =>
    match body s with
    | (Ok a, s') => (Ok a, s')
    | (Raise _, s') => handler s'
    end.

Notation "x <~ m ;; k" := (ebind m (fun x => k))
  (at level 100, m at next level, right associativity, only parsing).

Section OfferNumber.
Context `{!PyBuiltins} {S : Type} `{!SettingsStore S}.

(** Line 335: [int(str(obj)) if obj is not None else 1000]. *)
Definition current_suffix_of (current_suffix_obj : pyval) : result Z :=
  match current_suffix_obj with
  | VNone => Ok 1000%Z
  | obj => py_int (VStr (py_str obj))
  end.

(** Line 338: [f"AN{year}-{next_suffix:04d}"]. *)
Definition sequential_number (year next_suffix : Z) : string :=
  "AN" +:+ PyInt.to_str year +:+ "-" +:+ PyInt.to_str_zero_padded 4 next_suffix.

(** Lines 334-338, the body of the [try]. *)
Definition next_offer_number_try (now : datetime) : Eff S string :=
  current_suffix_obj <~ load_admin_setting "offer_number_suffix" (VInt 1000) ;;
  current_suffix <~ elift (current_suffix_of current_suffix_obj) ;;
  let next_suffix := (current_suffix + 1)%Z in
  _ <~ save_admin_setting "offer_number_suffix" (VInt next_suffix) ;;
  eret (sequential_number (dt_year now) next_suffix).

(** pdf_generator.py, lines 332-340.  [texts] is not used by the body. *)
Definition _get_next_offer_number (texts : gmap string string) (now : datetime)
  : Eff S string :=
  try_except (next_offer_number_try now)
             (eret ("AN" +:+ strftime_Ymd_HMS now)).

End OfferNumber.

(** ** Tables *)

(** A [Paragraph] object: its text and its style, the entry of [STYLES]
    it was looked up under. *)
Record Paragraph := { para_text : string; para_style : string }.

(** ReportLab's constructor [Paragraph(text, style)] reads [text] as
    markup and raises a [ValueError] when the markup is malformed;
    [markup_ok] tells which texts it accepts. *)
Class MarkupParser := {
  markup_ok : string -> bool
}.

(** [Paragraph(text, style)] *)
Definition Paragraph_new `{!MarkupParser} (text style : string)
  : result Paragraph :=
  if markup_ok text
  then Ok {| para_text := text; para_style := style |}
  else Raise ValueError.

(** A list comprehension whose element expression may raise: the
    elements are built from left to right. *)
Fixpoint result_map {A B} (f : A -> result B) (l : list A) : result (list B) :=
  match l with
  | [] => Ok []
  | a :: rest =>
      b <- f a ;;
      bs <- result_map f rest ;;
      Ok (b :: bs)
  end.

(** The styles the module adds to the sample style sheet, lines 111-130. *)
Definition STYLES : list string :=
  [ "NormalLeft"; "NormalRight"; "NormalCenter"; "Footer"; "OfferTitle";
    "SectionTitle"; "SubSectionTitle"; "ComponentTitle";
    "CompanyInfoDeckblatt"; "CoverLetter"; "CustomerAddress"; "TableText";
    "TableTextSmall"; "TableNumber"; "TableLabel"; "TableHeader";
    "TableBoldRight"; "ImageCaption"; "ChartTitle"; "ChapterHeader" ].

(** [STYLES.get(name, fallback)] *)
Definition STYLES_get (name fallback : string) : string :=
  if existsb (String.eqb name) STYLES then name else fallback.

Definition in_list (x : string) (l : list string) : bool :=
  existsb (String.eqb x) l.

(** Lines 344-359: result key, label key, euro flag, base style. *)
Definition cost_items_ordered_pdf : list (string * string * bool * string) :=
  [ ("base_matrix_price_netto", "base_matrix_price_netto", true, "TableText");
    ("cost_modules_aufpreis_netto", "cost_modules", true, "TableText");
    ("cost_inverter_aufpreis_netto", "cost_inverter", true, "TableText");
    ("cost_storage_aufpreis_product_db_netto", "cost_storage", true, "TableText");
    ("total_optional_components_cost_netto",
       "total_optional_components_cost_netto_label", true, "TableText");
    ("cost_accessories_aufpreis_netto", "cost_accessories_aufpreis_netto", true,
       "TableText");
    ("cost_scaffolding_netto", "cost_scaffolding_netto", true, "TableText");
    ("cost_misc_netto", "cost_misc_netto", true, "TableText");
    ("cost_custom_netto", "cost_custom_netto", true, "TableText");
    ("subtotal_netto", "subtotal_netto", true, "TableBoldRight");
    ("one_time_bonus_eur", "one_time_bonus_eur_label", true, "TableText");
    ("total_investment_netto", "total_investment_netto", true, "TableBoldRight");
    ("vat_rate_percent", "vat_rate_percent", false, "TableText");
    ("total_investment_brutto", "total_investment_brutto", true, "TableBoldRight") ].

(** The list of line 363. *)
Definition always_show_keys : list string :=
  [ "total_investment_netto"; "total_investment_brutto"; "subtotal_netto";
    "vat_rate_percent"; "base_matrix_price_netto"; "one_time_bonus_eur" ].

Section Tables.
Context `{!PyBuiltins} `{!MarkupParser}.

(** [analysis_results.get(key)], where an absent key reads as [None]. *)
Definition dict_get (d : gmap string pyval) (key : string) : pyval :=
  default VNone (d !! key).

(** Lines 365-373: the row appended for an item that is not skipped. *)
Definition cost_row (texts : gmap string string)
    (item : string * string * bool * string) (value_cost : pyval)
  : result (list Paragraph) :=
  let '(result_key, label_key, is_euro_val, base_style_name) := item in
  let label_text_pdf :=
    get_text texts label_key
      (Some (PyStr.title (PyStr.replace "_" " " label_key))) in
  let unit_pdf :=
    if is_euro_val then "€"
    else if String.eqb label_key "vat_rate_percent" then "%" else "" in
  let precision_pdf :=
    if String.eqb label_key "vat_rate_percent" then 1%nat else 2%nat in
  formatted_value_str_pdf <-
    format_kpi_value value_cost unit_pdf "not_applicable_short" precision_pdf
      (Some texts) ;;
  let value_style_name :=
    if in_list result_key
         ["total_investment_netto"; "total_investment_brutto"; "subtotal_netto"]
    then "TableBoldRight"
    else if is_euro_val || String.eqb unit_pdf "%" then "TableNumber"
    else base_style_name in
  let value_style := STYLES_get value_style_name "TableText" in
  label_cell <- Paragraph_new label_text_pdf "TableLabel" ;;
  value_cell <- Paragraph_new formatted_value_str_pdf value_style ;;
  Ok [ label_cell; value_cell ].

(** Lines 361-373: one turn of the loop, with [cost_data_pdf] as the
    accumulator. *)
Definition cost_item_step (analysis_results : gmap string pyval)
    (texts : gmap string string) (item : string * string * bool * string)
    (cost_data_pdf : list (list Paragraph)) : result (list (list Paragraph)) :=
  let result_key := item.1.1.1 in
  match dict_get analysis_results result_key with
  | VNone => Ok cost_data_pdf
  | value_cost =>
      if py_eq_zero value_cost && negb (in_list result_key always_show_keys)
      then Ok cost_data_pdf
      else
        row <- cost_row texts item value_cost ;;
        Ok (cost_data_pdf ++ [row])
  end.

(** Line 360: the loop over the items. *)
Fixpoint cost_table_loop (analysis_results : gmap string pyval)
    (texts : gmap string string)
    (items : list (string * string * bool * string))
    (cost_data_pdf : list (list Paragraph)) : result (list (list Paragraph)) :=
  match items with
  | [] => Ok cost_data_pdf
  | item :: rest =>
      cost_data_pdf' <- cost_item_step analysis_results texts item cost_data_pdf ;;
      cost_table_loop analysis_results texts rest cost_data_pdf'
  end.

(** pdf_generator.py, lines 342-374. *)
Definition _prepare_cost_table_for_pdf (analysis_results : gmap string pyval)
    (texts : gmap string string) : result (list (list Paragraph)) :=
  cost_table_loop analysis_results texts cost_items_ordered_pdf [].

(** Lines 378-385: header text, series key, unit, precision, style. *)
Definition header_config_pdf (texts : gmap string string)
  : list (string * option string * string * nat * string) :=
  [ (get_text texts "analysis_table_year_header" (Some "Jahr"),
       None, "", 0%nat, "TableText");
    (get_text texts "annual_pv_production_kwh" (Some "PV Prod."),
       Some "annual_productions_sim", "kWh", 0%nat, "TableNumber");
    (get_text texts "annual_financial_benefit" (Some "Jährl. Vorteil"),
       Some "annual_benefits_sim", "€", 2%nat, "TableNumber");
    (get_text texts "annual_maintenance_cost_sim" (Some "Wartung"),
       Some "annual_maintenance_costs_sim", "€", 2%nat, "TableNumber");
    (get_text texts "analysis_table_annual_cf_header" (Some "Jährl. CF"),
       Some "annual_cash_flows_sim", "€", 2%nat, "TableNumber");
    (get_text texts "analysis_table_cumulative_cf_header" (Some "Kum. CF"),
       Some "cumulative_cash_flows_sim_display", "€", 2%nat, "TableBoldRight") ].

(** [str(result_key_pdf)] for the key of a header entry. *)
Definition header_key_str (k : option string) : string :=
  match k with Some s => s | None => "None" end.

(** Lines 403-404: [current_list_pdf[i_pdf]] when the entry is a list that
    is long enough, [None] otherwise. *)
Definition series_value (analysis_results : gmap string pyval)
    (key : string) (i_pdf : nat) : pyval :=
  match default (VList []) (analysis_results !! key) with
  | VList l => default VNone (l !! i_pdf)
  | _ => VNone
  end.

(** Lines 401-406: the cells of one data row after the year cell. *)
Fixpoint sim_row_cells (analysis_results : gmap string pyval)
    (texts : gmap string string) (i_pdf : nat)
    (confs : list (string * option string * string * nat * string))
  : result (list Paragraph) :=
  match confs with
  | [] => Ok []
  | (_, result_key_pdf, unit_pdf, precision_pdf, style_name_data_pdf) :: rest =>
      let value_to_format_pdf :=
        series_value analysis_results (header_key_str result_key_pdf) i_pdf in
      formatted_str_pdf <-
        format_kpi_value value_to_format_pdf unit_pdf
          "value_not_available_short_pdf" precision_pdf (Some texts) ;;
      cell <-
        Paragraph_new formatted_str_pdf
          (STYLES_get style_name_data_pdf "TableText") ;;
      cells <- sim_row_cells analysis_results texts i_pdf rest ;;
      Ok (cell :: cells)
  end.

(** Lines 399-407: the rows for the years [i_pdf], [i_pdf + 1], ... *)
Fixpoint sim_rows (analysis_results : gmap string pyval)
    (texts : gmap string string) (i_pdf count : nat)
  : result (list (list Paragraph)) :=
  match count with
  | O => Ok []
  | S count' =>
      year_cell <-
        Paragraph_new (PyInt.to_str (Z.of_nat i_pdf + 1)) "TableText" ;;
      cells <- sim_row_cells analysis_results texts i_pdf
                 (tail (header_config_pdf texts)) ;;
      let row_items_formatted_pdf := year_cell :: cells in
      rows <- sim_rows analysis_results texts (S i_pdf) count' ;;
      Ok (row_items_formatted_pdf :: rows)
  end.

(** Lines 393-397: the value stored under
    ['cumulative_cash_flows_sim_display']. *)
Definition cumulative_display (analysis_results : gmap string pyval)
    (sim_period_eff_pdf : Z) : result pyval :=
  let cumulative_cash_flows_base_sim :=
    default (VList []) (analysis_results !! "cumulative_cash_flows_sim") in
  let none_list := VList (replicate (Z.to_nat sim_period_eff_pdf) VNone) in
  if truthy cumulative_cash_flows_base_sim then
    n <- py_len cumulative_cash_flows_base_sim ;;
    if (n =? sim_period_eff_pdf + 1)%Z
    then py_slice_from_1 cumulative_cash_flows_base_sim
    else Ok none_list
  else Ok none_list.

(** Line 386. *)
Definition header_row_pdf (texts : gmap string string)
  : result (list Paragraph) :=
  result_map (fun hc => Paragraph_new hc.1.1.1.1 "TableHeader")
    (header_config_pdf texts).

(** Line 410. *)
Definition ellipsis_row_pdf (texts : gmap string string)
  : result (list Paragraph) :=
  result_map (fun _ => Paragraph_new "..." "TableText")
    (header_config_pdf texts).

(** pdf_generator.py, lines 376-413.  The function writes to the
    [analysis_results] it is given, so it is a computation on that
    dictionary.  The header row is built first, before the simulated
    period is read; an exception leaves the dictionary as it is at that
    point. *)
Definition _prepare_simulation_table_for_pdf (texts : gmap string string)
    (num_years_to_show : Z) : Eff (gmap string pyval) (list (list Paragraph)) :=
  fun analysis_results =>
  match header_row_pdf texts with
  | Raise e => (Raise e, analysis_results)
  | Ok header_row =>
  match py_int (default (VInt 0)
                  (analysis_results !! "simulation_period_years_effective")) with
  | Raise e => (Raise e, analysis_results)
  | Ok sim_period_eff_pdf =>
      if (sim_period_eff_pdf =? 0)%Z
      then (Ok [header_row], analysis_results)
      else
        let actual_years_to_display_pdf :=
          Z.min sim_period_eff_pdf num_years_to_show in
        match cumulative_display analysis_results sim_period_eff_pdf with
        | Raise e => (Raise e, analysis_results)
        | Ok display =>
            let analysis_results' :=
              <["cumulative_cash_flows_sim_display" := display]> analysis_results in
            match sim_rows analysis_results' texts 0
                    (Z.to_nat actual_years_to_display_pdf) with
            | Raise e => (Raise e, analysis_results')
            | Ok rows =>
                if (num_years_to_show <? sim_period_eff_pdf)%Z then
                  match ellipsis_row_pdf texts with
                  | Raise e => (Raise e, analysis_results')
                  | Ok ellipsis_row =>
                      (Ok ([header_row] ++ rows ++ [ellipsis_row]),
                       analysis_results')
                  end
                else (Ok ([header_row] ++ rows), analysis_results')
            end
        end
  end
  end.

End Tables.

(** ** Flowables and images *)

Inductive flowable :=
| FParagraph (p : Paragraph)
| FSpacer (width : Z) (height : spec_float)
| FImage (data : string) (width height : spec_float) (hAlign : string).

Definition fmul : spec_float -> spec_float -> spec_float :=
  SFmul PyFloat.prec PyFloat.emax.
Definition fdiv : spec_float -> spec_float -> spec_float :=
  SFdiv PyFloat.prec PyFloat.emax.

(** [reportlab.lib.units.cm] and the float literals of the module. *)
Definition cm : spec_float := S754_finite false 7978818237467414 (-48).
Definition lit_0_1 : spec_float := S754_finite false 7205759403792794 (-56).
Definition lit_0_3 : spec_float := S754_finite false 5404319552844595 (-54).
Definition lit_0_5 : spec_float := S754_finite false 4503599627370496 (-53).
Definition lit_0_7 : spec_float := S754_finite false 6305039478318694 (-53).
Definition lit_0_9 : spec_float := S754_finite false 8106479329266893 (-53).
Definition lit_12 : spec_float := S754_finite false 6755399441055744 (-49).

(** What the module takes from ReportLab and [base64]. *)
Class ImageLib := {
  _REPORTLAB_AVAILABLE : bool;
  b64decode : string -> result string;
  (** [ImageReader(io.BytesIO(data)).getSize()] *)
  ImageReader_getSize : string -> result (Z * Z)
}.

Section Images.
Context `{!ImageLib}.

(** [s.split(',', 1)[1]]: what follows the first comma. *)
Fixpoint after_first_comma (s : string) : result string :=
  match s with
  | EmptyString => Raise IndexError
  | String c r => if Ascii.eqb c "," then Ok r else after_first_comma r
  end.

(** Lines 202-207. *)
Definition image_bytes_of_input (image_data_input : pyval) : option string :=
  match image_data_input with
  | VStr s =>
      if in_list (PyStr.lower (PyStr.strip s)) [""; "none"; "null"; "nan"]
      then None
      else
        match (payload <- (if String.prefix "data:image" s
                           then after_first_comma s else Ok s) ;;
               b64decode payload) with
        | Ok b => Some b
        | Raise _ => None
        end
  | VBytes b => Some b
  | _ => None
  end.

(** Lines 214-218: width and height of the image to draw. *)
Definition image_fit (data : string) (desired_width : spec_float)
    (max_height : option spec_float) : result (spec_float * spec_float) :=
  size <- ImageReader_getSize data ;;
  let '(iw, ih) := size in
  if ((iw <=? 0) || (ih <=? 0))%Z then Raise ValueError
  else
    fw <- PyFloat.of_int iw ;;
    fh <- PyFloat.of_int ih ;;
    let aspect := fdiv fh fw in
    let img_h_calc := fmul desired_width aspect in
    match max_height with
    | Some mh =>
        if negb (PyFloat.is_zero mh) && SFltb mh img_h_calc
        then Ok (if SFltb (S754_zero false) aspect then fdiv mh aspect
                 else desired_width, mh)
        else Ok (desired_width, img_h_calc)
    | None => Ok (desired_width, img_h_calc)
    end.

(** The placeholder of lines 227-234, for a caption key that resolves. *)
Definition caption_placeholder (texts : gmap string string)
    (caption_text_key : option string) : list flowable :=
  match caption_text_key with
  | Some key =>
      if PyStr.is_empty key then []
      else
        let caption_text_fb := get_text texts key (Some "") in
        if negb (PyStr.is_empty caption_text_fb)
           && negb (String.prefix key caption_text_fb)
        then [ FParagraph
                 {| para_text :=
                      "<i>(" +:+ caption_text_fb +:+ ": "
                      +:+ get_text texts "image_not_available_pdf"
                            (Some "Bild nicht verfügbar")
                      +:+ ")</i>";
                    para_style := "ImageCaption" |} ]
        else []
  | None => []
  end.

(** Lines 222-225: the caption under an image. *)
Definition caption_below (texts : gmap string string)
    (caption_text_key : option string) : list flowable :=
  match caption_text_key with
  | Some key =>
      if PyStr.is_empty key then []
      else
        let caption_text := get_text texts key (Some "") in
        if negb (PyStr.is_empty caption_text)
           && negb (String.prefix key caption_text)
           && negb (PyStr.endswith caption_text "(PDF-Text fehlt)")
        then [ FSpacer 1 (fmul lit_0_1 cm);
               FParagraph {| para_text := caption_text;
                             para_style := "ImageCaption" |} ]
        else []
  | None => []
  end.

(** pdf_generator.py, lines 197-235. *)
Definition _get_image_flowable (image_data_input : pyval)
    (desired_width : spec_float) (texts : gmap string string)
    (caption_text_key : option string) (max_height : option spec_float)
    (align : string) : list flowable :=
  if negb _REPORTLAB_AVAILABLE then []
  else
    match image_bytes_of_input image_data_input with
    | Some img_data_bytes =>
        if PyStr.is_empty img_data_bytes
        then caption_placeholder texts caption_text_key
        else
          match image_fit img_data_bytes desired_width max_height with
          | Ok (img_w_final, img_h_final) =>
              FImage img_data_bytes img_w_final img_h_final
                     (PyStr.upper align)
              :: caption_below texts caption_text_key
          | Raise _ => caption_placeholder texts caption_text_key
          end
    | None => caption_placeholder texts caption_text_key
    end.

End Images.

(** ** The chart gallery *)

(** Lines 773-799: chart key, title key, default title, in the order of
    the dictionary literal. *)
Definition charts_config_for_pdf_generator : list (string * string * string) :=
  [ ("monthly_prod_cons_chart_bytes", "pdf_chart_title_monthly_comp_pdf", "Monatl. Produktion/Verbrauch (2D)");
    ("cost_projection_chart_bytes", "pdf_chart_label_cost_projection", "Stromkosten-Hochrechnung (2D)");
    ("cumulative_cashflow_chart_bytes", "pdf_chart_label_cum_cashflow", "Kumulierter Cashflow (2D)");
    ("consumption_coverage_pie_chart_bytes", "pdf_chart_title_consumption_coverage_pdf", "Deckung Gesamtverbrauch (Jahr 1)");
    ("pv_usage_pie_chart_bytes", "pdf_chart_title_pv_usage_pdf", "Nutzung PV-Strom (Jahr 1)");
    ("daily_production_switcher_chart_bytes", "pdf_chart_label_daily_3d", "Tagesproduktion (3D)");
    ("weekly_production_switcher_chart_bytes", "pdf_chart_label_weekly_3d", "Wochenproduktion (3D)");
    ("yearly_production_switcher_chart_bytes", "pdf_chart_label_yearly_3d_bar", "Jahresproduktion (3D-Balken)");
    ("project_roi_matrix_switcher_chart_bytes", "pdf_chart_label_roi_matrix_3d", "Projektrendite-Matrix (3D)");
    ("feed_in_revenue_switcher_chart_bytes", "pdf_chart_label_feedin_3d", "Einspeisevergütung (3D)");
    ("prod_vs_cons_switcher_chart_bytes", "pdf_chart_label_prodcons_3d", "Verbr. vs. Prod. (3D)");
    ("tariff_cube_switcher_chart_bytes", "pdf_chart_label_tariffcube_3d", "Tarifvergleich (3D)");
    ("co2_savings_value_switcher_chart_bytes", "pdf_chart_label_co2value_3d", "CO2-Ersparnis vs. Wert (3D)");
    ("investment_value_switcher_chart_bytes", "pdf_chart_label_investval_3D", "Investitionsnutzwert (3D)");
    ("storage_effect_switcher_chart_bytes", "pdf_chart_label_storageeff_3d", "Speicherwirkung (3D)");
    ("selfuse_stack_switcher_chart_bytes", "pdf_chart_label_selfusestack_3d", "Eigenverbr. vs. Einspeis. (3D)");
    ("cost_growth_switcher_chart_bytes", "pdf_chart_label_costgrowth_3d", "Stromkostensteigerung (3D)");
    ("selfuse_ratio_switcher_chart_bytes", "pdf_chart_label_selfuseratio_3d", "Eigenverbrauchsgrad (3D)");
    ("roi_comparison_switcher_chart_bytes", "pdf_chart_label_roicompare_3d", "ROI-Vergleich (3D)");
    ("scenario_comparison_switcher_chart_bytes", "pdf_chart_label_scenariocomp_3d", "Szenarienvergleich (3D)");
    ("tariff_comparison_switcher_chart_bytes", "pdf_chart_label_tariffcomp_3d", "Vorher/Nachher Stromkosten (3D)");
    ("income_projection_switcher_chart_bytes", "pdf_chart_label_incomeproj_3d", "Einnahmenprognose (3D)");
    ("yearly_production_chart_bytes", "pdf_chart_label_pvvis_yearly", "PV Visuals: Jahresproduktion");
    ("break_even_chart_bytes", "pdf_chart_label_pvvis_breakeven", "PV Visuals: Break-Even");
    ("amortisation_chart_bytes", "pdf_chart_label_pvvis_amort", "PV Visuals: Amortisation") ].

Section Visualizations.
Context `{!ImageLib}.

(** Lines 803-813, one turn of the loop over the catalog.  The state is
    the story and [charts_added_count]. *)
Definition chart_step (texts : gmap string string)
    (selected_charts_for_pdf_opt : list string)
    (current_analysis_results_pdf : gmap string pyval)
    (available_width_content : spec_float)
    (state : list flowable * nat) (entry : string * string * string)
  : list flowable * nat :=
  let '(story, charts_added_count) := state in
  let '(chart_key, title_key, default_title) := entry in
  if negb (in_list chart_key selected_charts_for_pdf_opt) then state
  else
    match dict_get current_analysis_results_pdf chart_key with
    | VBytes chart_image_bytes =>
        if PyStr.is_empty chart_image_bytes then state
        else
          let chart_display_title := get_text texts title_key (Some default_title) in
          let story1 :=
            story ++ [FParagraph {| para_text := chart_display_title;
                                    para_style := "ChartTitle" |}] in
          let img_flowables_chart :=
            _get_image_flowable (VBytes chart_image_bytes)
              (fmul available_width_content lit_0_9) texts None
              (Some (fmul lit_12 cm)) "CENTER" in
          match img_flowables_chart with
          | [] =>
              (story1 ++
               [ FParagraph
                   {| para_text :=
                        get_text texts "pdf_chart_load_error_placeholder_param"
                          (Some ("(Fehler beim Laden: " +:+ chart_display_title
                                 +:+ ")"));
                      para_style := "NormalCenter" |};
                 FSpacer 1 (fmul lit_0_5 cm) ],
               charts_added_count)
          | _ =>
              (story1 ++ img_flowables_chart ++ [FSpacer 1 (fmul lit_0_7 cm)],
               S charts_added_count)
          end
    | _ => state
    end.

(** Lines 768-817: what the Visualizations section appends to the story. *)
Definition visualizations_section (texts : gmap string string)
    (selected_charts_for_pdf_opt : list string)
    (current_analysis_results_pdf : gmap string pyval)
    (available_width_content : spec_float) : list flowable :=
  let intro :=
    [ FParagraph
        {| para_text :=
             get_text texts "pdf_visualizations_intro"
               (Some "Die folgenden Diagramme visualisieren die Ergebnisse Ihrer Photovoltaikanlage und deren Wirtschaftlichkeit:");
           para_style := "NormalLeft" |};
      FSpacer 1 (fmul lit_0_3 cm) ] in
  let '(story, charts_added_count) :=
    fold_left
      (chart_step texts selected_charts_for_pdf_opt
         current_analysis_results_pdf available_width_content)
      charts_config_for_pdf_generator (intro, O) in
  match charts_added_count, selected_charts_for_pdf_opt with
  | O, _ :: _ =>
      story ++
      [ FParagraph
          {| para_text :=
               get_text texts "pdf_selected_charts_not_renderable"
                 (Some "Ausgewählte Diagramme konnten nicht geladen/angezeigt werden.");
             para_style := "NormalCenter" |} ]
  | _, [] =>
      story ++
      [ FParagraph
          {| para_text :=
               get_text texts "pdf_no_charts_selected_for_section"
                 (Some "Keine Diagramme für diese Sektion ausgewählt.");
             para_style := "NormalCenter" |} ]
  | _, _ => story
  end.

End Visualizations.

(** ** The appendix merge *)

Inductive pdf_source :=
| FromBytes (data : string)
| FromPath (path : string).

(** What the merge takes from pypdf, the file system and the callables it
    is handed.  Reading a source yields the pages its iteration delivers
    and the exception that ends it, if one does; a reader that cannot be
    opened delivers no page. *)
Class PdfEnv := {
  pdf_page : Type;
  _PYPDF_AVAILABLE : bool;
  PdfReader_pages : pdf_source -> list pdf_page * option exn;
  PdfWriter_write : list pdf_page -> result string;
  path_exists : string -> bool;
  path_join : string -> string -> string;
  PRODUCT_DATASHEETS_BASE_DIR_PDF_GEN : string;
  COMPANY_DOCS_BASE_DIR_PDF_GEN : string;
  (** [list(set(ids))]: the elements without repetition, in some order. *)
  list_of_set : list pyval -> result (list pyval);
  get_product_by_id_func : pyval -> result (option (gmap string pyval));
  db_list_company_documents_func : Z -> result (list (gmap string pyval))
}.

Section Merge.
Context `{!PdfEnv}.

(** [os.path.join(base, rel)] for a truthy [rel] read from a record. *)
Definition join_under (base : string) (rel : pyval) : result string :=
  match rel with
  | VStr r => Ok (path_join base r)
  | _ => Raise TypeError
  end.

(** Lines 858-866. *)
Definition product_ids_for_datasheets (pv_details_pdf : gmap string pyval)
  : list pyval :=
  let main :=
    List.filter truthy
      [ dict_get pv_details_pdf "selected_module_id";
        dict_get pv_details_pdf "selected_inverter_id";
        if truthy (dict_get pv_details_pdf "include_storage")
        then dict_get pv_details_pdf "selected_storage_id" else VNone ] in
  let optional :=
    if truthy (default (VBool false)
                 (pv_details_pdf !! "include_additional_components"))
    then List.filter truthy
           (map (dict_get pv_details_pdf)
              [ "selected_wallbox_id"; "selected_ems_id"; "selected_optimizer_id";
                "selected_carport_id"; "selected_notstrom_id";
                "selected_tierabwehr_id" ])
    else [] in
  main ++ optional.

(** Lines 872-877. *)
Fixpoint datasheet_paths (ids : list pyval) (paths_to_append : list string)
  : result (list string) :=
  match ids with
  | [] => Ok paths_to_append
  | prod_id :: rest =>
      product_info <- get_product_by_id_func prod_id ;;
      match product_info with
      | Some info =>
          let relative_datasheet_path := dict_get info "datasheet_link_db_path" in
          if negb (bool_decide (info = ∅)) && truthy relative_datasheet_path then
            full_datasheet_path <-
              join_under PRODUCT_DATASHEETS_BASE_DIR_PDF_GEN
                relative_datasheet_path ;;
            datasheet_paths rest
              (if path_exists full_datasheet_path
               then paths_to_append ++ [full_datasheet_path]
               else paths_to_append)
          else datasheet_paths rest paths_to_append
      | None => datasheet_paths rest paths_to_append
      end
  end.

(** The integer a float is equal to, if there is one. *)
Definition float_integer (f : spec_float) : option Z :=
  match f with
  | S754_zero _ => Some 0%Z
  | S754_finite s m e =>
      let sign (a : Z) := if s then (- a)%Z else a in
      if (0 <=? e)%Z then Some (sign (Z.pos m * 2 ^ e)%Z)
      else if (Z.pos m mod 2 ^ (- e) =? 0)%Z
      then Some (sign (Z.pos m / 2 ^ (- e))%Z)
      else None
  | _ => None
  end.

(** [doc_info.get('id') in company_document_ids_to_include_opt] for a list
    of integer ids; numbers compare by value. *)
Definition id_selected (id : pyval) (ids : list Z) : bool :=
  match id with
  | VInt z => existsb (Z.eqb z) ids
  | VBool b => existsb (Z.eqb (Z.b2z b)) ids
  | VFloat f =>
      match float_integer f with
      | Some z => existsb (Z.eqb z) ids
      | None => false
      end
  | _ => false
  end.

(** Lines 882-887. *)
Fixpoint company_doc_paths (docs : list (gmap string pyval)) (ids : list Z)
    (paths_to_append : list string) : result (list string) :=
  match docs with
  | [] => Ok paths_to_append
  | doc_info :: rest =>
      let relative_doc_path := dict_get doc_info "relative_db_path" in
      if id_selected (dict_get doc_info "id") ids && truthy relative_doc_path then
        full_doc_path <-
          join_under COMPANY_DOCS_BASE_DIR_PDF_GEN relative_doc_path ;;
        company_doc_paths rest ids
          (if path_exists full_doc_path
           then paths_to_append ++ [full_doc_path] else paths_to_append)
      else company_doc_paths rest ids paths_to_append
  end.

(** Lines 856-887: [paths_to_append]. *)
Definition collect_paths_to_append (pv_details_pdf : gmap string pyval)
    (company_document_ids_to_include_opt : list Z)
    (active_company_id : option Z) : result (list string) :=
  ids <- list_of_set (product_ids_for_datasheets pv_details_pdf) ;;
  paths <- datasheet_paths ids [] ;;
  match company_document_ids_to_include_opt, active_company_id with
  | _ :: _, Some company =>
      docs <- db_list_company_documents_func company ;;
      company_doc_paths docs company_document_ids_to_include_opt paths
  | _, _ => Ok paths
  end.

(** Lines 898-903: the pages the writer holds after the appendix loop. *)
Fixpoint append_datasheets (paths_to_append : list string)
    (pdf_writer : list pdf_page) : list pdf_page :=
  match paths_to_append with
  | [] => pdf_writer
  | pdf_path :: rest =>
      append_datasheets rest
        (pdf_writer ++ (PdfReader_pages (FromPath pdf_path)).1)
  end.

(** Lines 891-913, for a non-empty [paths_to_append]. *)
Definition merge_with_paths (main_pdf_bytes : string)
    (paths_to_append : list string) : string :=
  match PdfReader_pages (FromBytes main_pdf_bytes) with
  | (_, Some _) => main_pdf_bytes
  | (main_pages, None) =>
      match PdfWriter_write (append_datasheets paths_to_append main_pages) with
      | Ok final_pdf_bytes => final_pdf_bytes
      | Raise _ => main_pdf_bytes
      end
  end.

(** pdf_generator.py, lines 851-913: the end of [generate_offer_pdf],
    from the bytes of the built offer to the bytes returned.  [None] is
    the [None] of line 851. *)
Definition generate_offer_pdf_appendix (main_pdf_bytes : string)
    (include_all_documents_opt : bool)
    (pv_details_pdf : gmap string pyval)
    (company_document_ids_to_include_opt : list Z)
    (active_company_id : option Z) : result (option string) :=
  if PyStr.is_empty main_pdf_bytes then Ok None
  else if negb (include_all_documents_opt && _PYPDF_AVAILABLE)
  then Ok (Some main_pdf_bytes)
  else
    paths_to_append <-
      collect_paths_to_append pv_details_pdf
        company_document_ids_to_include_opt active_company_id ;;
    match paths_to_append with
    | [] => Ok (Some main_pdf_bytes)
    | _ => Ok (Some (merge_with_paths main_pdf_bytes paths_to_append))
    end.

End Merge.

(** ** Concrete collaborators

    Instances of the open library calls, used to run the definitions on
    concrete inputs. *)

(** The binary64 numbers 3.25, 1234.5 and 0.0. *)
Definition float_3_25 : spec_float := S754_finite false 7318349394477056 (-51).
Definition float_1234_5 : spec_float := S754_finite false 5429388417957888 (-42).
Definition float_zero : spec_float := S754_zero false.

(** Builtins that parse no string as a float and reject every template
    other than the built-in one. *)
Definition plain_builtins : PyBuiltins := {|
  float_of_str := fun _ => None;
  repr_other := fun _ => "";
  format_val_other := fun _ _ => Raise ValueError
|}.

(** A markup parser that accepts the texts without an opening angle
    bracket. *)
Definition plain_markup : MarkupParser := {|
  markup_ok := fun text => negb (PyStr.contains_char "<" text)
|}.

(** A store that keeps the settings in a map and never raises. *)
Definition map_store : SettingsStore (gmap string pyval) := {|
  load_admin_setting := fun key dflt s => (Ok (default dflt (s !! key)), s);
  save_admin_setting := fun key value s => (Ok (VBool true), <[key := value]> s)
|}.

(** 3 June 2025, 09:05:07. *)
Definition clock_2025 : datetime :=
  {| dt_year := 2025; dt_month := 6; dt_day := 3;
     dt_hour := 9; dt_minute := 5; dt_second := 7 |}.

(** An image library that decodes every image as 400 by 300 pixels. *)
Definition plain_images : ImageLib := {|
  _REPORTLAB_AVAILABLE := true;
  b64decode := fun s => Ok s;
  ImageReader_getSize := fun _ => Ok (400, 300)%Z
|}.

(** A PDF library whose pages are the characters of the file: a byte
    string reads as one page per character, a path reads as one page per
    character of the path, and the path ["bad.pdf"] cannot be opened. *)
Definition plain_pdf : PdfEnv := {|
  pdf_page := ascii;
  _PYPDF_AVAILABLE := true;
  PdfReader_pages := fun src =>
    match src with
    | FromBytes b => (list_ascii_of_string b, None)
    | FromPath p =>
        if String.eqb p "bad.pdf" then ([], Some OSError)
        else (list_ascii_of_string p, None)
    end;
  PdfWriter_write := fun pages => Ok (string_of_list_ascii pages);
  path_exists := fun _ => true;
  path_join := fun _ rel => rel;
  PRODUCT_DATASHEETS_BASE_DIR_PDF_GEN := "data/product_datasheets";
  COMPANY_DOCS_BASE_DIR_PDF_GEN := "data/company_docs";
  list_of_set := fun ids => Ok ids;
  get_product_by_id_func := fun id =>
    Ok (Some {[ "datasheet_link_db_path" := VStr (py_str (H := plain_builtins) id) ]});
  db_list_company_documents_func := fun _ => Ok []
|}.

(** A series of [n] entries, each 1234.5. *)
Definition float_list (n : nat) : pyval := VList (replicate n (VFloat float_1234_5)).

(** An [AnalysisResults] with [years] simulated years and series of [n]
    entries. *)
Definition sim_input (years : Z) (n : nat) : gmap string pyval :=
  {[ "simulation_period_years_effective" := VInt years;
     "annual_productions_sim" := float_list n;
     "annual_benefits_sim" := float_list n;
     "annual_maintenance_costs_sim" := float_list n;
     "annual_cash_flows_sim" := float_list n;
     "cumulative_cash_flows_sim" := float_list n ]}.

(** The customers of the salutation examples. *)
Definition customer_anna : gmap string pyval :=
  {[ "salutation" := VStr "Frau"; "first_name" := VStr "Anna";
     "last_name" := VStr "Muster" ]}.

Definition customer_schmidt : gmap string pyval :=
  {[ "salutation" := VStr "Familie"; "last_name" := VStr "Schmidt" ]}.

Definition customer_blank : gmap string pyval :=
  {[ "salutation" := VStr ""; "title" := VStr ""; "first_name" := VStr "";
     "last_name" := VStr ""; "company_name" := VStr "" ]}.

(** ** Auxiliary predicates *)

(** A string of decimal digits. *)
Fixpoint all_digits (s : string) : bool :=
  match s with
  | EmptyString => true
  | String c r => PyStr.is_digit c && all_digits r
  end.

(** A value that converts to a float when it is a number: anything but an
    integer beyond the range of binary64. *)
Definition formats_ok (v : pyval) : bool :=
  match as_number v with
  | Some (Raise _) => false
  | _ => true
  end.

(** An entry of [AnalysisResults] that is absent or a list of values that
    the formatter accepts. *)
Definition series_entry_ok (entry : option pyval) : Prop :=
  match entry with
  | None => True
  | Some (VList l) => Forall (fun v => formats_ok v = true) l
  | Some _ => False
  end.

(** The series the simulation table reads from its input. *)
Definition sim_series_keys : list string :=
  [ "annual_productions_sim"; "annual_benefits_sim";
    "annual_maintenance_costs_sim"; "annual_cash_flows_sim";
    "cumulative_cash_flows_sim" ].

(** A data row of the simulation table: it starts with a year number. *)
Definition year_row (row : list Paragraph) : Prop :=
  exists (k : Z) (cells : list Paragraph),
    row = {| para_text := PyInt.to_str k; para_style := "TableText" |} :: cells.

(** The simulated period as the table reads it, line 389. *)
Definition sim_period_of (analysis_results : gmap string pyval) : result Z :=
  py_int (default (VInt 0)
            (analysis_results !! "simulation_period_years_effective")).

(** The value C9 describes for ['cumulative_cash_flows_sim_display']: the
    tail of the cumulative series when that has one entry more than the
    simulated period, and a list of [None], one per simulated year,
    otherwise. *)
Definition display_as_claimed (entry : option pyval) (eff : Z) : pyval :=
  match entry with
  | Some (VList l) =>
      if (Z.of_nat (length l) =? eff + 1)%Z then VList (tail l)
      else VList (replicate (Z.to_nat eff) VNone)
  | _ => VList (replicate (Z.to_nat eff) VNone)
  end.

(** An entry of [AnalysisResults] that is absent or a list. *)
Definition list_or_absent (entry : option pyval) : Prop :=
  match entry with
  | None | Some (VList _) => True
  | Some _ => False
  end.

(** The keys whose value cell is set in bold, line 370. *)
Definition bold_keys : list string :=
  [ "total_investment_netto"; "total_investment_brutto"; "subtotal_netto" ].

(** The row of the cost table for an item whose value is [0.0]. *)
Definition zero_cost_row (texts : gmap string string)
    (item : string * string * bool * string) : list Paragraph :=
  let '(result_key, label_key, _, _) := item in
  [ {| para_text :=
         get_text texts label_key
           (Some (PyStr.title (PyStr.replace "_" " " label_key)));
       para_style := "TableLabel" |};
    {| para_text :=
         if String.eqb label_key "vat_rate_percent" then "0,0 %" else "0,00 €";
       para_style :=
         if in_list result_key bold_keys then "TableBoldRight"
         else "TableNumber" |} ].

(** A cost breakdown in which the subtotal and the miscellaneous costs are
    zero. *)
Definition cost_input : gmap string pyval :=
  {[ "base_matrix_price_netto" := VFloat float_1234_5;
     "cost_misc_netto" := VFloat float_zero;
     "subtotal_netto" := VFloat float_zero;
     "vat_rate_percent" := VInt 19 ]}.

(** Charts in the analysis results: one selected and rendered, one
    rendered but not selected, one selected but [None]. *)
Definition charts_input : gmap string pyval :=
  {[ "break_even_chart_bytes" := VBytes "PNG-1";
     "amortisation_chart_bytes" := VBytes "PNG-2";
     "cost_projection_chart_bytes" := VNone ]}.

Definition charts_selected : list string :=
  [ "break_even_chart_bytes"; "cost_projection_chart_bytes" ].

(** A content width of 512 points. *)
Definition page_width : spec_float := S754_finite false 4503599627370496 (-43).

(** The images in a story all come from selected charts with bytes. *)
Definition images_gated (selected : list string) (ar : gmap string pyval)
    (story : list flowable) : Prop :=
  forall d w h a,
    In (FImage d w h a) story ->
    exists key title_key default_title,
      In (key, title_key, default_title) charts_config_for_pdf_generator /\
      in_list key selected = true /\
      ar !! key = Some (VBytes d) /\ d <> EmptyString.

(** The cells of the header row, line 386, and of the ellipsis row,
    line 410, once they are built. *)
Definition header_cells (texts : gmap string string) : list Paragraph :=
  map (fun hc => {| para_text := hc.1.1.1.1; para_style := "TableHeader" |})
      (header_config_pdf texts).

Definition ellipsis_cells : list Paragraph :=
  replicate 6 {| para_text := "..."; para_style := "TableText" |}.

(** The text the formatter gives for [v] is markup that [Paragraph]
    accepts. *)
Definition cell_text_ok `{!PyBuiltins} `{!MarkupParser}
    (texts : gmap string string) (na_text_key unit : string) (precision : nat)
    (v : pyval) : Prop :=
  forall s : string,
    format_kpi_value v unit na_text_key precision (Some texts) = Ok s ->
    markup_ok s = true.

(** The series the simulation table reads from its input, each with the
    unit and the precision of its column, lines 379-384. *)
Definition sim_series_formats : list (string * string * nat) :=
  [ ("annual_productions_sim", "kWh", 0%nat);
    ("annual_benefits_sim", "€", 2%nat);
    ("annual_maintenance_costs_sim", "€", 2%nat);
    ("annual_cash_flows_sim", "€", 2%nat);
    ("cumulative_cash_flows_sim", "€", 2%nat) ].

(** The texts of the simulation table are markup that [Paragraph]
    accepts: the six headers, the ellipsis, the year numbers, and in
    each column the text for a missing value and the formatted entries of
    the series. *)
Definition sim_texts_accepted `{!PyBuiltins} `{!MarkupParser}
    (texts : gmap string string) (ar : gmap string pyval) : Prop :=
  Forall (fun hc => markup_ok hc.1.1.1.1 = true) (header_config_pdf texts) /\
  markup_ok "..." = true /\
  (forall k : Z, markup_ok (PyInt.to_str k) = true) /\
  (forall key unit precision,
      In (key, unit, precision) sim_series_formats ->
      cell_text_ok texts "value_not_available_short_pdf" unit precision VNone /\
      forall l,
        ar !! key = Some (VList l) ->
        Forall (cell_text_ok texts "value_not_available_short_pdf" unit precision)
          l).

(** A column whose cells can all be built: its unit is not ["Jahre"], and
    the entries of its series are values the formatter accepts and whose
    text is accepted as markup. *)
Definition column_ok `{!PyBuiltins} `{!MarkupParser}
    (ar : gmap string pyval) (texts : gmap string string)
    (conf : string * option string * string * nat * string) : Prop :=
  String.eqb conf.1.1.2 "Jahre" = false /\
  cell_text_ok texts "value_not_available_short_pdf" conf.1.1.2 conf.1.2 VNone /\
  forall l,
    ar !! header_key_str conf.1.1.1.2 = Some (VList l) ->
    Forall (fun v =>
              formats_ok v = true /\
              cell_text_ok texts "value_not_available_short_pdf" conf.1.1.2
                conf.1.2 v) l.

(** The label, the unit and the precision of a cost item, lines
    365-367. *)
Definition cost_label (texts : gmap string string)
    (item : string * string * bool * string) : string :=
  get_text texts item.1.1.2
    (Some (PyStr.title (PyStr.replace "_" " " item.1.1.2))).

Definition cost_unit (item : string * string * bool * string) : string :=
  if item.1.2 then "€"
  else if String.eqb item.1.1.2 "vat_rate_percent" then "%" else "".

Definition cost_precision (item : string * string * bool * string) : nat :=
  if String.eqb item.1.1.2 "vat_rate_percent" then 1%nat else 2%nat.

(** The style of the value cell of a cost item, lines 369-372. *)
Definition cost_value_style (item : string * string * bool * string) : string :=
  STYLES_get
    (if in_list item.1.1.1 bold_keys then "TableBoldRight"
     else if item.1.2 || String.eqb (cost_unit item) "%" then "TableNumber"
     else item.2)
    "TableText".

(** The text of the value cell for a value of [0.0]. *)
Definition zero_cost_text (item : string * string * bool * string) : string :=
  if String.eqb item.1.1.2 "vat_rate_percent" then "0,0 %" else "0,00 €".

(** The texts of the cost table are markup that [Paragraph] accepts: the
    labels of the items and their formatted values. *)
Definition cost_texts_accepted `{!PyBuiltins} `{!MarkupParser}
    (texts : gmap string string) (ar : gmap string pyval) : Prop :=
  forall item,
    In item cost_items_ordered_pdf ->
    markup_ok (cost_label texts item) = true /\
    cell_text_ok texts "not_applicable_short" (cost_unit item)
      (cost_precision item) (dict_get ar item.1.1.1).

(** A field of a time stamp: [width] decimal digits that read as [k]. *)
Definition digits_of (width : nat) (k : Z) (s : string) : Prop :=
  String.length s = width /\ all_digits s = true /\ PyInt.of_str s = Some k.

(** The form [YYYYMMDD-HHMMSS] of a reading of the clock. *)
Definition is_timestamp (now : datetime) (stamp : string) : Prop :=
  exists year month day hour minute second,
    stamp = year +:+ month +:+ day +:+ "-" +:+ hour +:+ minute +:+ second /\
    digits_of 4 (dt_year now) year /\
    digits_of 2 (dt_month now) month /\
    digits_of 2 (dt_day now) day /\
    digits_of 2 (dt_hour now) hour /\
    digits_of 2 (dt_minute now) minute /\
    digits_of 2 (dt_second now) second.

(** A clock reading with a four-digit year and fields in their ranges. *)
Definition valid_clock (now : datetime) : Prop :=
  (1000 <= dt_year now <= 9999)%Z /\ (1 <= dt_month now <= 12)%Z /\
  (1 <= dt_day now <= 31)%Z /\ (0 <= dt_hour now <= 23)%Z /\
  (0 <= dt_minute now <= 59)%Z /\ (0 <= dt_second now <= 59)%Z.

(** ** Placeholders in the templates *)

(** [now.strftime('%d.%m.%Y')] *)
Definition strftime_dmY (now : datetime) : string :=
  PyInt.to_str_zero_padded 2 (dt_day now)
  +:+ "." +:+ PyInt.to_str_zero_padded 2 (dt_month now)
  +:+ "." +:+ PyInt.to_str_zero_padded 4 (dt_year now).

Section Placeholders.
Context `{!PyBuiltins}.

(** [f"{d.get(a, '')} {d.get(b, '')}".strip()], lines 314 and 315. *)
Definition two_fields (d : gmap string pyval) (a b : string) : string :=
  PyStr.strip (py_str (default (VStr "") (d !! a)) +:+ " "
               +:+ py_str (default (VStr "") (d !! b))).

(** Lines 320, 323 and 326: the formatted value, or the "not calculated"
    text for [None]. *)
Definition kpi_placeholder (texts_dict : gmap string string) (value : pyval)
    (unit : string) : result string :=
  match value with
  | VNone => Ok (get_text texts_dict "value_not_calculated_short" (Some "k.B."))
  | _ =>
      format_kpi_value value unit "value_not_calculated_short" 2
        (Some texts_dict)
  end.

(** Lines 303-326: [ersatz_dict], in the order of its keys. *)
Definition ersatz_dict (customer_data company_info : gmap string pyval)
    (offer_number : string) (texts_dict : gmap string string)
    (analysis_results_for_placeholder : option (gmap string pyval))
    (now : datetime) : result (list (string * string)) :=
  let now_date_str := strftime_dmY now in
  complete_salutation_line <-
    _generate_complete_salutation_line customer_data texts_dict ;;
  let customer (key : string) :=
    py_str (default (VStr "") (customer_data !! key)) in
  let entries :=
    [ ("[VollständigeAnrede]", complete_salutation_line);
      ("[Ihr Name/Firmenname]",
         py_str (default
                   (VStr (get_text texts_dict
                            "company_name_default_placeholder_pdf"
                            (Some "Ihr Solarexperte")))
                   (company_info !! "name")));
      ("[Angebotsnummer]", offer_number);
      ("[Datum]", now_date_str);
      ("[KundenNachname]", customer "last_name");
      ("[KundenVorname]", customer "first_name");
      ("[KundenAnredeFormell]", customer "salutation");
      ("[KundenTitel]", customer "title");
      ("[KundenStrasseNr]", two_fields customer_data "address" "house_number");
      ("[KundenPLZOrt]", two_fields customer_data "zip_code" "city");
      ("[KundenFirmenname]", customer "company_name") ] in
  match analysis_results_for_placeholder with
  | Some analysis_results =>
      if bool_decide (analysis_results = ∅) then Ok entries
      else
        kwp <- kpi_placeholder texts_dict
                 (dict_get analysis_results "anlage_kwp") "kWp" ;;
        brutto <- kpi_placeholder texts_dict
                    (dict_get analysis_results "total_investment_brutto") "€" ;;
        benefit <- kpi_placeholder texts_dict
                     (dict_get analysis_results "annual_financial_benefit_year1")
                     "€" ;;
        Ok (entries ++
            [ ("[AnlagenleistungkWp]", kwp);
              ("[GesamtinvestitionBrutto]", brutto);
              ("[FinanziellerVorteilJahr1]", benefit) ])
  | None => Ok entries
  end.

(** Lines 328-329: the replacements, one after the other, each on the
    text the one before it left. *)
Definition replace_all (entries : list (string * string)) (text : string)
  : string :=
  fold_left (fun processed_text entry =>
               PyStr.replace entry.1 entry.2 processed_text)
            entries text.

(** pdf_generator.py, lines 299-330.  [now] is the reading of the clock. *)
Definition _replace_placeholders (text_template : pyval)
    (customer_data company_info : gmap string pyval) (offer_number : string)
    (texts_dict : gmap string string)
    (analysis_results_for_placeholder : option (gmap string pyval))
    (now : datetime) : result string :=
  let processed_text :=
    match text_template with
    | VNone => ""
    | _ => py_str text_template
    end in
  entries <- ersatz_dict customer_data company_info offer_number texts_dict
               analysis_results_for_placeholder now ;;
  Ok (replace_all entries processed_text).

(** ** The plain-text fallback *)

Definition newline : string := String "010" EmptyString.

(** pdf_generator.py, lines 915-929.  [project_data] is read only under
    ['customer_data']; the bytes are the UTF-8 text. *)
Definition _create_plaintext_pdf_fallback
    (project_data : gmap string (gmap string pyval))
    (analysis_results : option (gmap string pyval))
    (texts : gmap string string) (company_info : gmap string pyval)
    (pdf_offer_title_template pdf_cover_letter_text : pyval) (now : datetime)
  : result string :=
  let customer_fb := default ∅ (project_data !! "customer_data") in
  let calc_res_fb := default ∅ analysis_results in
  let head :=
    get_text texts "pdf_plaintext_title_pdf" (Some "PV-Angebot (Textversion)")
    +:+ newline +:+ PyStr.repeat "=" 40 +:+ newline +:+ newline
    +:+ get_text texts "pdf_offer_title_label_fb" (Some "Angebotstitel")
    +:+ ": " +:+ py_str pdf_offer_title_template +:+ newline
    +:+ get_text texts "pdf_date_label_fb" (Some "Datum")
    +:+ ": " +:+ strftime_dmY now +:+ newline +:+ newline
    +:+ get_text texts "pdf_company_label_fb" (Some "Firma")
    +:+ ": " +:+ py_str (default (VStr "N/A") (company_info !! "name"))
    +:+ newline in
  anschreiben_fb <-
    _replace_placeholders pdf_cover_letter_text customer_fb company_info
      "FALLBACK_NR" texts (Some calc_res_fb) now ;;
  let anlage_kwp_fb_val := dict_get calc_res_fb "anlage_kwp" in
  anlage_kwp_fb <-
    format_kpi_value anlage_kwp_fb_val "kWp" "value_not_available_short_pdf" 2
      (Some texts) ;;
  Ok (head
      +:+ newline
      +:+ get_text texts "pdf_cover_letter_label_fb" (Some "Anschreiben")
      +:+ ":" +:+ newline +:+ anschreiben_fb +:+ newline +:+ newline
      +:+ newline +:+ "--- "
      +:+ get_text texts "pdf_section_title_overview_fb" (Some "Projektübersicht")
      +:+ " ---" +:+ newline
      +:+ get_text texts "anlage_size_label_pdf_fb" (Some "Anlagengröße")
      +:+ ": " +:+ anlage_kwp_fb +:+ newline
      +:+ newline +:+ "("
      +:+ get_text texts "pdf_plaintext_fallback_note"
            (Some "Dies ist eine vereinfachte Textversion des Angebots aufgrund eines Fehlers bei der PDF-Erstellung.")
      +:+ ")" +:+ newline).

End Placeholders.

(** ** Headers and footers *)

Definition fadd : spec_float -> spec_float -> spec_float :=
  SFadd PyFloat.prec PyFloat.emax.
Definition fsub : spec_float -> spec_float -> spec_float :=
  SFsub PyFloat.prec PyFloat.emax.

(** More float literals of the module. *)
Definition lit_0_35 : spec_float := S754_finite false 6305039478318694 (-54).
Definition lit_0_45 : spec_float := S754_finite false 8106479329266893 (-54).
Definition lit_0_75 : spec_float := S754_finite false 6755399441055744 (-53).
Definition lit_1 : spec_float := S754_finite false 4503599627370496 (-52).
Definition lit_1_8 : spec_float := S754_finite false 8106479329266893 (-52).
Definition lit_2 : spec_float := S754_finite false 4503599627370496 (-51).
Definition lit_2_5 : spec_float := S754_finite false 5629499534213120 (-51).

(** One more library call left open: [template.format] with keyword
    arguments, for the templates with named fields. *)
Class PyFormat := {
  str_format : string -> list (string * pyval) -> result string
}.


(** The calls [page_layout_handler] makes on the canvas, with their
    arguments. *)
Inductive canvas_op :=
| OpSaveState
| OpRestoreState
| OpDrawImage (data : string) (x y width height : spec_float)
| OpDrawParagraph (p : Paragraph) (x y : spec_float)
| OpSetFont (name : string) (size : Z)
| OpDrawRightString (x y : spec_float) (text : string)
| OpDrawCentredString (x y : spec_float) (text : pyval).

(** What the handler takes from ReportLab: whether [ImageReader] accepts
    the bytes, and the size [Paragraph.wrapOn] reports. *)
Class CanvasLib := {
  ImageReader_open : string -> result unit;
  Paragraph_wrapOn : Paragraph -> spec_float -> spec_float -> spec_float * spec_float
}.

Definition FONT_NORMAL : string := "Helvetica".
Definition FONT_ITALIC : string := "Helvetica-Oblique".

(** [canvas_obj.method(...)]: the call is added to the log. *)
Definition canvas_call (op : canvas_op) : Eff (list canvas_op) unit :=
  fun log => (Ok tt, log ++ [op]).

Section PageLayout.
Context `{!PyBuiltins} `{!PyFormat} `{!MarkupParser} `{!ImageLib} `{!CanvasLib}.

(** Line 247: the bytes of the logo, decoded once more. *)
Definition logo_bytes_for_draw (company_logo_base64_ref : pyval)
  : result string :=
  match company_logo_base64_ref with
  | VStr s =>
      if PyStr.contains_char "," s
      then payload <- after_first_comma s ;; b64decode payload
      else b64decode s
  | _ => Raise TypeError
  end.

(** Lines 243-250: the body of the [try], from the flowables on. *)
Definition footer_logo_ops (company_logo_base64_ref : pyval)
    (texts_ref : gmap string string) (margin_left_ref margin_bottom_ref : spec_float)
  : list canvas_op :=
  match _get_image_flowable company_logo_base64_ref (fmul lit_1_8 cm) texts_ref
          None (Some (fmul lit_1 cm)) "LEFT" with
  | FImage _ drawWidth drawHeight _ :: _ =>
      match (bytes <- logo_bytes_for_draw company_logo_base64_ref ;;
             _ <- ImageReader_open bytes ;; Ok bytes) with
      | Ok bytes =>
          [ OpDrawImage bytes margin_left_ref (fmul margin_bottom_ref lit_0_35)
              drawWidth drawHeight ]
      | Raise _ => []
      end
  | _ => []
  end.

(** pdf_generator.py, lines 237-267.  [page_num] is
    [canvas_obj.getPageNumber()], [current_chapter_title] and [total_pages]
    are the attributes of the canvas the handler reads, [now] is the
    reading of the clock.  The handler acts on the canvas by the calls it
    makes. *)
Definition page_layout_handler (page_num : Z) (current_chapter_title : string)
    (total_pages : option Z)
    (texts_ref : gmap string string) (company_info_ref : gmap string pyval)
    (company_logo_base64_ref : pyval) (offer_number_ref : string)
    (page_width_ref page_height_ref margin_left_ref margin_right_ref
     margin_top_ref margin_bottom_ref doc_width_ref doc_height_ref : spec_float)
    (now : datetime) : Eff (list canvas_op) unit :=
  _ <~ canvas_call OpSaveState ;;
  _ <~ (if truthy company_logo_base64_ref && (1 <? page_num)%Z
        then fun log =>
               (Ok tt,
                log ++ footer_logo_ops company_logo_base64_ref texts_ref
                         margin_left_ref margin_bottom_ref)
        else eret tt) ;;
  _ <~ (if negb (PyStr.is_empty current_chapter_title) && (1 <? page_num)%Z
        then
          p_chapter <~
            elift (Paragraph_new current_chapter_title "ChapterHeader") ;;
          let '(p_w, p_h) :=
            Paragraph_wrapOn p_chapter (fsub doc_width_ref (fmul lit_2_5 cm))
              margin_top_ref in
          canvas_call
            (OpDrawParagraph p_chapter
               (fsub (fsub page_width_ref margin_right_ref) p_w)
               (fadd (fsub page_height_ref margin_top_ref) (fmul lit_0_3 cm)))
        else eret tt) ;;
  _ <~ (if (1 <? page_num)%Z then
          page_info_text <~
            elift (str_format
                     (get_text texts_ref "pdf_page_x_of_y"
                        (Some "Seite {current} von {total}"))
                     [ ("current", VStr (PyInt.to_str page_num));
                       ("total",
                          VStr (match total_pages with
                                | Some n => PyInt.to_str n
                                | None => "??"
                                end)) ]) ;;
          let footer_text_fmt :=
            get_text texts_ref "pdf_footer_text_format_simple"
              (Some "Angebot {offer_no} | {date} | {page_info}") in
          final_footer_text <~
            elift (str_format footer_text_fmt
                     [ ("offer_no", VStr offer_number_ref);
                       ("date", VStr (strftime_dmY now));
                       ("page_info", VStr page_info_text) ]) ;;
          _ <~ canvas_call (OpSetFont FONT_ITALIC 8) ;;
          canvas_call
            (OpDrawRightString (fsub page_width_ref margin_right_ref)
               (fmul margin_bottom_ref lit_0_45) final_footer_text)
        else eret tt) ;;
  let company_specific_footer_line :=
    default (VStr "") (company_info_ref !! "pdf_footer_text") in
  _ <~ (if truthy company_specific_footer_line && (1 <? page_num)%Z
        then
          _ <~ canvas_call (OpSetFont FONT_NORMAL 7) ;;
          canvas_call
            (OpDrawCentredString (fdiv page_width_ref lit_2)
               (fmul margin_bottom_ref lit_0_75) company_specific_footer_line)
        else eret tt) ;;
  canvas_call OpRestoreState.

End PageLayout.

(** ** The canvas that counts pages *)

Section PageNumCanvas.
Context {B : Type}.

(** The [__dict__] of a canvas: the attributes [PageNumCanvas] adds, the
    page number, and, as [base_attrs], the other attributes of
    [canvas.Canvas]. *)
Record canvas_dict := {
  total_pages : Z;
  current_chapter_title_for_header : string;
  _pageNumber : Z;
  base_attrs : B
}.

(** The canvas object: its [__dict__], and the list
    [_saved_page_states], which every copy of the [__dict__] refers to
    and none contains. *)
Record PageNumCanvas := {
  self_dict : canvas_dict;
  _saved_page_states : list canvas_dict
}.

(** [canvas.Canvas.__init__] and [canvas.Canvas.showPage], on the base
    attributes and the page number. *)
Variable Canvas_init : B * Z.
Variable Canvas_showPage : B * Z -> B * Z.

(** Lines 137-143. *)
Definition PageNumCanvas_init : PageNumCanvas :=
  {| self_dict :=
       {| total_pages := 0;
          current_chapter_title_for_header := "";
          _pageNumber := Canvas_init.2;
          base_attrs := Canvas_init.1 |};
     _saved_page_states := [] |}.

(** Lines 144-146. *)
Definition showPage (self : PageNumCanvas) : PageNumCanvas :=
  let snapshot := self_dict self in
  let after := Canvas_showPage (base_attrs snapshot, _pageNumber snapshot) in
  {| self_dict :=
       {| total_pages := total_pages snapshot;
          current_chapter_title_for_header :=
            current_chapter_title_for_header snapshot;
          _pageNumber := after.2;
          base_attrs := after.1 |};
     _saved_page_states := _saved_page_states self ++ [snapshot] |}.

(** Lines 163-164: [SetCurrentChapterTitle.draw] on a canvas. *)
Definition SetCurrentChapterTitle_draw (title : string) (self : PageNumCanvas)
  : PageNumCanvas :=
  {| self_dict :=
       {| total_pages := total_pages (self_dict self);
          current_chapter_title_for_header := title;
          _pageNumber := _pageNumber (self_dict self);
          base_attrs := base_attrs (self_dict self) |};
     _saved_page_states := _saved_page_states self |}.

(** Drawing on the canvas changes the base attributes. *)
Definition canvas_draw (f : B -> B) (self : PageNumCanvas) : PageNumCanvas :=
  {| self_dict :=
       {| total_pages := total_pages (self_dict self);
          current_chapter_title_for_header :=
            current_chapter_title_for_header (self_dict self);
          _pageNumber := _pageNumber (self_dict self);
          base_attrs := f (base_attrs (self_dict self)) |};
     _saved_page_states := _saved_page_states self |}.

(** Lines 150-154: the loop of [save].  In each turn the [__dict__] is
    overwritten with the saved copy, the page number is set, and the
    callback, which draws on the canvas it is given or raises, is
    called. *)
Fixpoint save_loop (_page_layout_callback : canvas_dict -> result B)
    (state_idx : Z) (states : list canvas_dict) (self : canvas_dict)
  : result canvas_dict :=
  match states with
  | [] => Ok self
  | state :: rest =>
      let updated :=
        {| total_pages := total_pages state;
           current_chapter_title_for_header :=
             current_chapter_title_for_header state;
           _pageNumber := (state_idx + 1)%Z;
           base_attrs := base_attrs state |} in
      drawn <- _page_layout_callback updated ;;
      save_loop _page_layout_callback (state_idx + 1)%Z rest
        {| total_pages := total_pages updated;
           current_chapter_title_for_header :=
             current_chapter_title_for_header updated;
           _pageNumber := _pageNumber updated;
           base_attrs := drawn |}
  end.

(** Lines 148-154: [save] up to the call of [canvas.Canvas.save]. *)
Definition save_pages (_page_layout_callback : canvas_dict -> result B)
    (self : PageNumCanvas) : result PageNumCanvas :=
  let counted :=
    {| total_pages := Z.of_nat (length (_saved_page_states self));
       current_chapter_title_for_header :=
         current_chapter_title_for_header (self_dict self);
       _pageNumber := _pageNumber (self_dict self);
       base_attrs := base_attrs (self_dict self) |} in
  final <- save_loop _page_layout_callback 0 (_saved_page_states self) counted ;;
  Ok {| self_dict := final; _saved_page_states := _saved_page_states self |}.

(** The canvases that [__init__], [showPage], drawing and the chapter
    marker produce. *)
Inductive canvas_reachable : PageNumCanvas -> Prop :=
| reach_init : canvas_reachable PageNumCanvas_init
| reach_showPage self :
    canvas_reachable self -> canvas_reachable (showPage self)
| reach_title title self :
    canvas_reachable self ->
    canvas_reachable (SetCurrentChapterTitle_draw title self)
| reach_draw f self :
    canvas_reachable self -> canvas_reachable (canvas_draw f self).

End PageNumCanvas.

Arguments canvas_dict : clear implicits.
Arguments PageNumCanvas : clear implicits.

(** ** The chart selection and the file name of [pdf_ui.py] *)

(** pdf_ui.py, lines 213-239: chart key, text key and default label, in
    the order of the dictionary literal. *)
Definition chart_key_to_friendly_name_map : list (string * string * string) :=
  [ ("monthly_prod_cons_chart_bytes", "pdf_chart_label_monthly_compare", "Monatl. Produktion/Verbrauch (2D)");
    ("cost_projection_chart_bytes", "pdf_chart_label_cost_projection", "Stromkosten-Hochrechnung (2D)");
    ("cumulative_cashflow_chart_bytes", "pdf_chart_label_cum_cashflow", "Kumulierter Cashflow (2D)");
    ("consumption_coverage_pie_chart_bytes", "pdf_chart_label_consum_coverage_pie", "Verbrauchsdeckung (Kreis)");
    ("pv_usage_pie_chart_bytes", "pdf_chart_label_pv_usage_pie", "PV-Nutzung (Kreis)");
    ("daily_production_switcher_chart_bytes", "pdf_chart_label_daily_3d", "Tagesproduktion (3D)");
    ("weekly_production_switcher_chart_bytes", "pdf_chart_label_weekly_3d", "Wochenproduktion (3D)");
    ("yearly_production_switcher_chart_bytes", "pdf_chart_label_yearly_3d_bar", "Jahresproduktion (3D-Balken)");
    ("project_roi_matrix_switcher_chart_bytes", "pdf_chart_label_roi_matrix_3d", "Projektrendite-Matrix (3D)");
    ("feed_in_revenue_switcher_chart_bytes", "pdf_chart_label_feedin_3d", "Einspeisevergütung (3D)");
    ("prod_vs_cons_switcher_chart_bytes", "pdf_chart_label_prodcons_3d", "Verbr. vs. Prod. (3D)");
    ("tariff_cube_switcher_chart_bytes", "pdf_chart_label_tariffcube_3d", "Tarifvergleich (3D)");
    ("co2_savings_value_switcher_chart_bytes", "pdf_chart_label_co2value_3d", "CO2-Ersparnis vs. Wert (3D)");
    ("investment_value_switcher_chart_bytes", "pdf_chart_label_investval_3D", "Investitionsnutzwert (3D)");
    ("storage_effect_switcher_chart_bytes", "pdf_chart_label_storageeff_3d", "Speicherwirkung (3D)");
    ("selfuse_stack_switcher_chart_bytes", "pdf_chart_label_selfusestack_3d", "Eigenverbr. vs. Einspeis. (3D)");
    ("cost_growth_switcher_chart_bytes", "pdf_chart_label_costgrowth_3d", "Stromkostensteigerung (3D)");
    ("selfuse_ratio_switcher_chart_bytes", "pdf_chart_label_selfuseratio_3d", "Eigenverbrauchsgrad (3D)");
    ("roi_comparison_switcher_chart_bytes", "pdf_chart_label_roicompare_3d", "ROI-Vergleich (3D)");
    ("scenario_comparison_switcher_chart_bytes", "pdf_chart_label_scenariocomp_3d", "Szenarienvergleich (3D)");
    ("tariff_comparison_switcher_chart_bytes", "pdf_chart_label_tariffcomp_3d", "Vorher/Nachher Stromkosten (3D)");
    ("income_projection_switcher_chart_bytes", "pdf_chart_label_incomeproj_3d", "Einnahmenprognose (3D)");
    ("yearly_production_chart_bytes", "pdf_chart_label_pvvis_yearly", "PV Visuals: Jahresproduktion");
    ("break_even_chart_bytes", "pdf_chart_label_pvvis_breakeven", "PV Visuals: Break-Even");
    ("amortisation_chart_bytes", "pdf_chart_label_pvvis_amort", "PV Visuals: Amortisation") ].

Definition is_none (v : pyval) : bool :=
  match v with VNone => true | _ => false end.

(** pdf_ui.py, line 240.  The dictionary is the list of its items, in the
    order of its keys. *)
Definition available_chart_keys (analysis_results : list (string * pyval))
  : list string :=
  map fst
    (List.filter
       (fun item => PyStr.endswith item.1 "_chart_bytes" && negb (is_none item.2))
       analysis_results).

(** pdf_ui.py, lines 241-243. *)
Definition ordered_display_keys (analysis_results : list (string * pyval))
  : list string :=
  let available := available_chart_keys analysis_results in
  let from_map :=
    List.filter (fun k_map => in_list k_map available)
      (map (fun entry => entry.1.1) chart_key_to_friendly_name_map) in
  fold_left
    (fun ordered k_avail =>
       if in_list k_avail ordered then ordered else ordered ++ [k_avail])
    available from_map.

(** pdf_ui.py, lines 245-250: the keys whose check box is ticked;
    [checked] is the answer of [st.checkbox] for a chart key. *)
Definition selected_chart_keys_for_pdf_ui (checked : string -> bool)
    (analysis_results : list (string * pyval)) : list string :=
  fold_left
    (fun selected chart_key =>
       if checked chart_key && negb (in_list chart_key selected)
       then selected ++ [chart_key] else selected)
    (ordered_display_keys analysis_results) [].

Section FileName.
Context `{!PyBuiltins}.

(** pdf_ui.py, lines 295-298.  [timestamp_file] is the random suffix. *)
Definition download_file_name (customer_data_pdf : gmap string pyval)
    (timestamp_file : string) : string :=
  let customer_name_for_file :=
    default (VStr "Angebot") (customer_data_pdf !! "last_name") in
  let customer_name_for_file :=
    if has_text customer_name_for_file then customer_name_for_file
    else VStr "Photovoltaik_Angebot" in
  "Angebot_" +:+ PyStr.replace " " "_" (py_str customer_name_for_file)
  +:+ "_" +:+ timestamp_file +:+ ".pdf".

End FileName.

(** ** Auxiliary definitions for the further properties *)

(** [s] with every character [a] replaced by the string [new]. *)
Fixpoint subst_char (a : ascii) (new : string) (s : string) : string :=
  match s with
  | EmptyString => EmptyString
  | String c r =>
      if Ascii.eqb a c then new +:+ subst_char a new r
      else String c (subst_char a new r)
  end.

(** Whether [old] occurs in [s]. *)
Fixpoint occurs (old s : string) : bool :=
  String.prefix old s
  || match s with
     | EmptyString => false
     | String _ r => occurs old r
     end.

(** A comma for a point and a point for a comma, character by
    character. *)
Fixpoint swap_separators (s : string) : string :=
  match s with
  | EmptyString => EmptyString
  | String c r =>
      String (if Ascii.eqb c "," then "."%char
              else if Ascii.eqb c "." then ","%char else c)
             (swap_separators r)
  end.

(** Builtins whose float parser knows the text ["nan"] and nothing
    else. *)
Definition nan_builtins : PyBuiltins := {|
  float_of_str := fun s => if String.eqb s "nan" then Some S754_nan else None;
  repr_other := fun _ => "";
  format_val_other := fun _ _ => Raise ValueError
|}.

Definition is_str (v : pyval) : bool :=
  match v with VStr _ => true | _ => false end.

(** The keys of the customer record that make up the name. *)
Definition name_keys : list string := [ "title"; "first_name"; "last_name" ].

(** A customer whose title is the number 5. *)
Definition customer_number_title : gmap string pyval :=
  {[ "salutation" := VStr "Herr"; "title" := VInt 5;
     "last_name" := VStr "Muster" ]}.

(** Whether the cost table shows an item: its value is there, and is not
    a zero outside the always-show list. *)
Definition cost_item_shown (analysis_results : gmap string pyval)
    (item : string * string * bool * string) : bool :=
  let value_cost := dict_get analysis_results item.1.1.1 in
  negb (is_none value_cost)
  && negb (py_eq_zero value_cost && negb (in_list item.1.1.1 always_show_keys)).

Definition is_image (f : flowable) : bool :=
  match f with FImage _ _ _ _ => true | _ => false end.

(** The strings [_get_image_flowable] takes for "no image", line 202. *)
Definition null_like (s : string) : bool :=
  in_list (PyStr.lower (PyStr.strip s)) [""; "none"; "null"; "nan"].

(** An image library that reads every image as 300 by 400 pixels. *)
Definition tall_images : ImageLib := {|
  _REPORTLAB_AVAILABLE := true;
  b64decode := fun s => Ok s;
  ImageReader_getSize := fun _ => Ok (300, 400)%Z
|}.

(** The two paragraphs that open the Visualizations section. *)
Definition visualizations_intro (texts : gmap string string) : list flowable :=
  [ FParagraph
      {| para_text :=
           get_text texts "pdf_visualizations_intro"
             (Some "Die folgenden Diagramme visualisieren die Ergebnisse Ihrer Photovoltaikanlage und deren Wirtschaftlichkeit:");
         para_style := "NormalLeft" |};
    FSpacer 1 (fmul lit_0_3 cm) ].

Definition is_spacer (f : flowable) : bool :=
  match f with FSpacer _ _ => true | _ => false end.

(** An image library that cannot read the size of any image. *)
Definition broken_images : ImageLib := {|
  _REPORTLAB_AVAILABLE := true;
  b64decode := fun s => Ok s;
  ImageReader_getSize := fun _ => Raise OSError
|}.

(** * Properties *)

(** ** Strings and integers as text *)

Lemma string_length_app a b :
  String.length (a +:+ b) = (String.length a + String.length b)%nat.
Proof.
  induction a as [|c a IH]; [reflexivity|].
  change (S (String.length (a +:+ b))
          = S (String.length a + String.length b)).
  by rewrite IH.
Qed.

Lemma string_app_assoc a b c : a +:+ (b +:+ c) = (a +:+ b) +:+ c.
Proof.
  induction a as [|x a IH]; [reflexivity|].
  change (String x (a +:+ (b +:+ c)) = String x ((a +:+ b) +:+ c)).
  by rewrite IH.
Qed.

Lemma length_repeat c n : String.length (PyStr.repeat c n) = n.
Proof. induction n as [|n IH]; simpl; [reflexivity | by rewrite IH]. Qed.

Lemma drop_length_app p s : PyStr.drop (String.length p) (p +:+ s) = s.
Proof. induction p as [|c p IH]; [reflexivity | exact IH]. Qed.

Lemma endswith_app p s : PyStr.endswith (p +:+ s) s = true.
Proof.
  unfold PyStr.endswith. rewrite string_length_app.
  apply andb_true_intro; split.
  - apply Nat.leb_le. lia.
  - replace (String.length p + String.length s - String.length s)%nat
      with (String.length p) by lia.
    rewrite drop_length_app. apply String.eqb_refl.
Qed.

Lemma digit_not_space c : PyStr.is_digit c = true -> PyStr.is_space c = false.
Proof.
  destruct c as [b0 b1 b2 b3 b4 b5 b6 b7].
  destruct b0, b1, b2, b3, b4, b5, b6, b7; vm_compute; congruence.
Qed.

Lemma digit_not_sign c :
  PyStr.is_digit c = true ->
  Ascii.eqb c "-" = false /\ Ascii.eqb c "+" = false /\ Ascii.eqb c "_" = false.
Proof.
  destruct c as [b0 b1 b2 b3 b4 b5 b6 b7].
  destruct b0, b1, b2, b3, b4, b5, b6, b7; vm_compute; intuition congruence.
Qed.

Lemma string_of_uint_all_digits d :
  all_digits (NilEmpty.string_of_uint d) = true.
Proof. induction d; simpl; auto. Qed.

Lemma lstrip_digits s : all_digits s = true -> PyStr.lstrip s = s.
Proof.
  destruct s as [|c r]; simpl; [done|].
  intros [Hc _]%andb_prop. by rewrite (digit_not_space c Hc).
Qed.

Lemma rstrip_digits s : all_digits s = true -> PyStr.rstrip s = s.
Proof.
  induction s as [|c r IH]; simpl; [done|].
  intros [Hc Hr]%andb_prop. rewrite (IH Hr), (digit_not_space c Hc).
  by destruct r.
Qed.

Lemma strip_digits s : all_digits s = true -> PyStr.strip s = s.
Proof.
  intros H. unfold PyStr.strip. rewrite (lstrip_digits s H).
  by apply rstrip_digits.
Qed.

Lemma digits_ok_digits s :
  all_digits s = true -> s <> EmptyString -> PyInt.digits_ok false s = true.
Proof.
  assert (Hgen : forall t, all_digits t = true -> PyInt.digits_ok true t = true).
  { induction t as [|c r IH]; simpl; [done|].
    intros [Hc Hr]%andb_prop. rewrite Hc. by apply IH. }
  destruct s as [|c r]; simpl; [done|].
  intros [Hc Hr]%andb_prop _. rewrite Hc. by apply Hgen.
Qed.

Lemma drop_underscores_digits s :
  all_digits s = true -> PyInt.drop_underscores s = s.
Proof.
  induction s as [|c r IH]; simpl; [done|].
  intros [Hc Hr]%andb_prop.
  destruct (digit_not_sign c Hc) as (_ & _ & ->). by rewrite (IH Hr).
Qed.

(** The digits of a positive number read back as that number. *)
Lemma of_str_digits_pos (p : positive) :
  let ds := NilEmpty.string_of_uint (Pos.to_uint p) in
  ds <> EmptyString /\ all_digits ds = true /\
  NilEmpty.uint_of_string ds = Some (Pos.to_uint p) /\
  Z.of_uint (Pos.to_uint p) = Z.pos p.
Proof.
  intros ds. repeat split.
  - subst ds. pose proof (DecimalPos.Unsigned.to_uint_nonnil p) as Hnil.
    destruct (Pos.to_uint p); simpl; congruence.
  - apply string_of_uint_all_digits.
  - apply NilEmpty.usu.
  - unfold Z.of_uint. by rewrite DecimalPos.Unsigned.of_to.
Qed.

(** [int(str(z)) == z] for every integer. *)
Lemma of_str_to_str (z : Z) : PyInt.of_str (PyInt.to_str z) = Some z.
Proof.
  destruct z as [|p|p]; [reflexivity| |].
  - destruct (of_str_digits_pos p) as (Hne & Hd & Hparse & Hval).
    unfold PyInt.to_str. simpl Z.to_int. unfold NilZero.string_of_int.
    assert (Hs : NilZero.string_of_uint (Pos.to_uint p)
                 = NilEmpty.string_of_uint (Pos.to_uint p)).
    { pose proof (DecimalPos.Unsigned.to_uint_nonnil p).
      by destruct (Pos.to_uint p). }
    rewrite Hs. unfold PyInt.of_str. rewrite (strip_digits _ Hd).
    destruct (NilEmpty.string_of_uint (Pos.to_uint p)) as [|c r] eqn:E; [done|].
    apply andb_prop in Hd as Hd'. destruct Hd' as [Hc _].
    destruct (digit_not_sign c Hc) as (-> & -> & _).
    rewrite (digits_ok_digits _ Hd Hne), (drop_underscores_digits _ Hd), Hparse.
    by rewrite Hval.
  - destruct (of_str_digits_pos p) as (Hne & Hd & Hparse & Hval).
    unfold PyInt.to_str. simpl Z.to_int. unfold NilZero.string_of_int.
    assert (Hs : NilZero.string_of_uint (Pos.to_uint p)
                 = NilEmpty.string_of_uint (Pos.to_uint p)).
    { pose proof (DecimalPos.Unsigned.to_uint_nonnil p).
      by destruct (Pos.to_uint p). }
    rewrite Hs. unfold PyInt.of_str, PyStr.strip.
    assert (Hstrip : PyStr.rstrip (PyStr.lstrip
              (String "-" (NilEmpty.string_of_uint (Pos.to_uint p))))
            = String "-" (NilEmpty.string_of_uint (Pos.to_uint p))).
    { change (PyStr.lstrip (String "-" ?r)) with (String "-" r).
      simpl PyStr.rstrip. rewrite (rstrip_digits _ Hd).
      destruct (NilEmpty.string_of_uint (Pos.to_uint p)); [done|reflexivity]. }
    rewrite Hstrip. change (Ascii.eqb "-" "-") with true. cbv iota beta.
    rewrite (digits_ok_digits _ Hd Hne), (drop_underscores_digits _ Hd), Hparse.
    by rewrite Hval.
Qed.

(** [f"{z:04d}"] has at least [width] characters. *)
Lemma zero_padded_length width z :
  (width <= String.length (PyInt.to_str_zero_padded width z))%nat.
Proof.
  unfold PyInt.to_str_zero_padded.
  rewrite !string_length_app, length_repeat. lia.
Qed.

(** Below 10000 the padded suffix has exactly four characters, and a
    field below 100 padded to two has exactly two; both by running
    through the range. *)
Lemma zero_padded_four (k : Z) :
  (0 <= k <= 9999)%Z -> String.length (PyInt.to_str_zero_padded 4 k) = 4%nat.
Proof.
  intros Hk.
  assert (Hall : forallb
            (fun n => Nat.eqb
               (String.length (PyInt.to_str_zero_padded 4 (Z.of_nat n))) 4)
            (seq 0 (Z.to_nat 10000)) = true) by (vm_compute; reflexivity).
  rewrite forallb_forall in Hall. specialize (Hall (Z.to_nat k)).
  rewrite Z2Nat.id in Hall by lia. apply Nat.eqb_eq, Hall.
  apply in_seq. lia.
Qed.

Lemma zero_padded_two (k : Z) :
  (0 <= k <= 99)%Z -> String.length (PyInt.to_str_zero_padded 2 k) = 2%nat.
Proof.
  intros Hk.
  assert (Hall : forallb
            (fun n => Nat.eqb
               (String.length (PyInt.to_str_zero_padded 2 (Z.of_nat n))) 2)
            (seq 0 (Z.to_nat 100)) = true) by (vm_compute; reflexivity).
  rewrite forallb_forall in Hall. specialize (Hall (Z.to_nat k)).
  rewrite Z2Nat.id in Hall by lia. apply Nat.eqb_eq, Hall.
  apply in_seq. lia.
Qed.

(** A field of the clock padded to its width is that many digits, and
    they read back as the field; by running through the range. *)
Lemma zero_padded_digits_four (k : Z) :
  (0 <= k <= 9999)%Z -> digits_of 4 k (PyInt.to_str_zero_padded 4 k).
Proof.
  intros Hk.
  assert (Hall : forallb
            (fun n =>
               let s := PyInt.to_str_zero_padded 4 (Z.of_nat n) in
               Nat.eqb (String.length s) 4 && all_digits s
               && match PyInt.of_str s with
                  | Some z => (z =? Z.of_nat n)%Z
                  | None => false
                  end)
            (seq 0 (Z.to_nat 10000)) = true) by (vm_compute; reflexivity).
  rewrite forallb_forall in Hall. specialize (Hall (Z.to_nat k)).
  rewrite Z2Nat.id in Hall by lia. cbv zeta in Hall.
  assert (Hin : In (Z.to_nat k) (seq 0 (Z.to_nat 10000)))
    by (apply in_seq; lia).
  apply Hall in Hin. apply andb_prop in Hin as [Hin Hread].
  apply andb_prop in Hin as [Hlen Hdigits].
  split; [by apply Nat.eqb_eq|]. split; [exact Hdigits|].
  destruct (PyInt.of_str _) as [z|]; [|discriminate].
  apply Z.eqb_eq in Hread. by subst z.
Qed.

Lemma zero_padded_digits_two (k : Z) :
  (0 <= k <= 99)%Z -> digits_of 2 k (PyInt.to_str_zero_padded 2 k).
Proof.
  intros Hk.
  assert (Hall : forallb
            (fun n =>
               let s := PyInt.to_str_zero_padded 2 (Z.of_nat n) in
               Nat.eqb (String.length s) 2 && all_digits s
               && match PyInt.of_str s with
                  | Some z => (z =? Z.of_nat n)%Z
                  | None => false
                  end)
            (seq 0 (Z.to_nat 100)) = true) by (vm_compute; reflexivity).
  rewrite forallb_forall in Hall. specialize (Hall (Z.to_nat k)).
  rewrite Z2Nat.id in Hall by lia. cbv zeta in Hall.
  assert (Hin : In (Z.to_nat k) (seq 0 (Z.to_nat 100)))
    by (apply in_seq; lia).
  apply Hall in Hin. apply andb_prop in Hin as [Hin Hread].
  apply andb_prop in Hin as [Hlen Hdigits].
  split; [by apply Nat.eqb_eq|]. split; [exact Hdigits|].
  destruct (PyInt.of_str _) as [z|]; [|discriminate].
  apply Z.eqb_eq in Hread. by subst z.
Qed.

(** The time stamp of a valid clock reading has the form
    [YYYYMMDD-HHMMSS]: the digits of the year, the month, the day, a
    hyphen, and the digits of the hour, the minute and the second. *)
Lemma strftime_is_timestamp (now : datetime) :
  valid_clock now -> is_timestamp now (strftime_Ymd_HMS now).
Proof.
  intros (Hy & Hmo & Hd & Hh & Hmi & Hs).
  exists (PyInt.to_str_zero_padded 4 (dt_year now)),
         (PyInt.to_str_zero_padded 2 (dt_month now)),
         (PyInt.to_str_zero_padded 2 (dt_day now)),
         (PyInt.to_str_zero_padded 2 (dt_hour now)),
         (PyInt.to_str_zero_padded 2 (dt_minute now)),
         (PyInt.to_str_zero_padded 2 (dt_second now)).
  split; [reflexivity|].
  split; [apply zero_padded_digits_four; lia|].
  repeat split; apply zero_padded_digits_two; lia.
Qed.

(** The time stamp [%Y%m%d-%H%M%S] of a valid clock reading has fifteen
    characters. *)
Lemma strftime_length (now : datetime) :
  valid_clock now -> String.length (strftime_Ymd_HMS now) = 15%nat.
Proof.
  intros (Hy & Hmo & Hd & Hh & Hmi & Hs). unfold strftime_Ymd_HMS.
  rewrite !string_length_app.
  rewrite zero_padded_four by lia. rewrite !zero_padded_two by lia.
  reflexivity.
Qed.

(** ** The value formatter *)

(** [float_3_25] is the binary64 number 3.25 = 13/4. *)
Example float_3_25_value :
  valid_binary 53 1024 float_3_25 = true /\
  (7318349394477056 * 4 = 13 * 2 ^ 51)%Z.
Proof. split; reflexivity. Qed.

(** With one fractional digit 3.25 lies half way between 3.2 and 3.3, and
    the even neighbour is taken. *)
Example scaled_3_25 : PyFloat.scaled 1 7318349394477056 (-51) = 32%Z.
Proof. reflexivity. Qed.

(** C1, as the claim words it, fails: the call [format_kpi_value(3.25,
    "Jahre")] does not return ["3,3 Jahre"]. *)
Lemma format_kpi_value_years_not_3_3 :
  @format_kpi_value plain_builtins (VFloat float_3_25) "Jahre"
    "not_applicable_short" 2 None <> Ok "3,3 Jahre".
Proof. vm_compute. intros H. discriminate H. Qed.

(** C1, amended: for the value 3.25 with unit ["Jahre"], and texts that
    do not override the years template, [format_kpi_value] returns
    ["3.2 Jahre"] whatever the precision argument is: the years branch
    formats with one fractional digit (rounding the tie to the even digit)
    and returns before the swap of separators, so the decimal point
    stays. *)
Theorem format_kpi_value_years_3_25 `{!PyBuiltins}
    (na_text_key : string) (precision : nat)
    (texts_dict : option (gmap string string)) :
  default ∅ texts_dict !! "years_format_string_pdf" = None ->
  format_kpi_value (VFloat float_3_25) "Jahre" na_text_key precision texts_dict
  = Ok "3.2 Jahre".
Proof.
  intros Hnone.
  assert (Htemplate :
    get_text (default ∅ texts_dict) "years_format_string_pdf"
      (Some years_default_template) = years_default_template).
  { unfold get_text. by rewrite Hnone. }
  unfold format_kpi_value.
  cbn [as_number rbind PyFloat.isnan float_3_25].
  unfold format_numeric.
  change (String.eqb "Jahre" "Jahre") with true.
  change (PyFloat.isinf (S754_finite false 7318349394477056 (-51))) with false.
  cbv iota. rewrite Htemplate. reflexivity.
Qed.

(** The call of the claim, [format_kpi_value(3.25, "Jahre")]. *)
Lemma format_kpi_value_years_3_25_witness :
  @format_kpi_value plain_builtins (VFloat float_3_25) "Jahre"
    "not_applicable_short" 2 None = Ok "3.2 Jahre".
Proof.
  apply (@format_kpi_value_years_3_25 plain_builtins "not_applicable_short" 2 None).
  reflexivity.
Defined.

(** C5: formatting [None] gives the localized N/A text, and formatting
    that text again, with the same texts and N/A key, gives it back
    unchanged. *)
Theorem format_kpi_value_na_idempotent `{!PyBuiltins}
    (texts_dict : option (gmap string string))
    (na_text_key unit unit' : string) (precision precision' : nat) :
  let na_text := get_text (default ∅ texts_dict) na_text_key (Some "k.A.") in
  format_kpi_value VNone unit na_text_key precision texts_dict = Ok na_text /\
  format_kpi_value (VStr na_text) unit' na_text_key precision' texts_dict
  = Ok na_text.
Proof.
  intros na_text. split; [reflexivity|].
  unfold format_kpi_value. fold na_text. by rewrite String.eqb_refl.
Qed.

(** ** The salutation line *)

(** C6: the three salutation lines.  For "Frau Anna Muster" the line is
    the female-polite text followed by the full name and ends in
    ["Anna Muster,"]; for "Familie Schmidt" it is the family-polite text
    followed by the last name, which with the built-in text reads
    ["Sehr geehrte Familie Schmidt,"]; for a customer without any field,
    or with every field empty, it is the generic fallback. *)
Theorem salutation_examples `{!PyBuiltins} (texts : gmap string string) :
  let female := get_text texts "salutation_female_polite" (Some "Sehr geehrte/r") in
  let family :=
    get_text texts "salutation_family_polite" (Some "Sehr geehrte Familie") in
  let generic :=
    get_text texts "salutation_generic_fallback"
      (Some "Sehr geehrte Damen und Herren,") in
  (_generate_complete_salutation_line customer_anna texts
   = Ok (female +:+ " Anna Muster,") /\
   PyStr.endswith (female +:+ " Anna Muster,") "Anna Muster," = true) /\
  (_generate_complete_salutation_line customer_schmidt texts
   = Ok (family +:+ " Schmidt,") /\
   (texts !! "salutation_family_polite" = None ->
    _generate_complete_salutation_line customer_schmidt texts
    = Ok "Sehr geehrte Familie Schmidt," /\
    PyStr.endswith "Sehr geehrte Familie Schmidt," "Familie Schmidt," = true)) /\
  _generate_complete_salutation_line ∅ texts = Ok generic /\
  _generate_complete_salutation_line customer_blank texts = Ok generic.
Proof.
  intros female family generic.
  split; [split; [reflexivity|] | split; [split; [reflexivity|] | split; reflexivity]].
  - change (female +:+ " Anna Muster,")
      with (female +:+ (" " +:+ "Anna Muster,")).
    rewrite string_app_assoc. apply endswith_app.
  - intros Hnone.
    assert (Hfam : family = "Sehr geehrte Familie").
    { subst family. unfold get_text. by rewrite Hnone. }
    split; [|reflexivity].
    change (Ok (family +:+ " Schmidt,") = Ok "Sehr geehrte Familie Schmidt,").
    by rewrite Hfam.
Qed.

(** The default texts give the family line of C6. *)
Lemma salutation_examples_witness :
  @_generate_complete_salutation_line plain_builtins customer_schmidt ∅
  = Ok "Sehr geehrte Familie Schmidt,".
Proof.
  refine (proj1 (proj2 (proj1 (proj2 (@salutation_examples plain_builtins ∅))) _)).
  reflexivity.
Defined.

(** ** The offer number *)

Section OfferNumberProps.
Context `{!PyBuiltins} {S : Type} `{!SettingsStore S}.

(** The three steps of a [try] body that returns. *)
Lemma next_offer_number_try_ok (now : datetime) (s s' : S) (n : string) :
  next_offer_number_try now s = (Ok n, s') ->
  exists obj s1 cur r,
    load_admin_setting "offer_number_suffix" (VInt 1000) s = (Ok obj, s1) /\
    current_suffix_of obj = Ok cur /\
    save_admin_setting "offer_number_suffix" (VInt (cur + 1)) s1 = (Ok r, s') /\
    n = sequential_number (dt_year now) (cur + 1).
Proof.
  unfold next_offer_number_try, ebind, elift, eret.
  destruct (load_admin_setting _ _ s) as [[obj|e] s1] eqn:Hload; [|congruence].
  destruct (current_suffix_of obj) as [cur|e] eqn:Hcur; [|congruence].
  destruct (save_admin_setting _ _ s1) as [[r|e] s2] eqn:Hsave; [|congruence].
  intros [= <- <-]. by exists obj, s1, cur, r.
Qed.

(** A stored integer is read back as itself. *)
Lemma current_suffix_of_int (k : Z) : current_suffix_of (VInt k) = Ok k.
Proof. unfold current_suffix_of, py_int, py_str. by rewrite of_str_to_str. Qed.

(** C7, amended: two calls in a row against a store whose save is seen by
    the next load, both on the sequential path and in the same year.  The
    first returns [AN{year}-{k}] and the second [AN{year}-{k+1}], where
    [k] is one more than the suffix the first call loaded; each call
    leaves its suffix in the store; the suffix is padded with zeros to
    four characters, which is its exact width below 10000, and is longer
    when the number needs it. *)
Theorem offer_numbers_increase
    (Hstore : forall (v : pyval) (s s' : S) (r : pyval),
        save_admin_setting "offer_number_suffix" v s = (Ok r, s') ->
        forall d, load_admin_setting "offer_number_suffix" d s' = (Ok v, s'))
    (texts : gmap string string) (now1 now2 : datetime)
    (s s1 s2 : S) (n1 n2 : string) :
  dt_year now1 = dt_year now2 ->
  next_offer_number_try now1 s = (Ok n1, s1) ->
  next_offer_number_try now2 s1 = (Ok n2, s2) ->
  exists (obj : pyval) (s0 : S) (k : Z),
    load_admin_setting "offer_number_suffix" (VInt 1000) s = (Ok obj, s0) /\
    current_suffix_of obj = Ok (k - 1)%Z /\
    _get_next_offer_number texts now1 s = (Ok n1, s1) /\
    _get_next_offer_number texts now2 s1 = (Ok n2, s2) /\
    n1 = sequential_number (dt_year now1) k /\
    n2 = sequential_number (dt_year now1) (k + 1) /\
    (k < k + 1)%Z /\
    load_admin_setting "offer_number_suffix" (VInt 1000) s1 = (Ok (VInt k), s1) /\
    load_admin_setting "offer_number_suffix" (VInt 1000) s2
    = (Ok (VInt (k + 1)), s2) /\
    (4 <= String.length (PyInt.to_str_zero_padded 4 k))%nat /\
    (4 <= String.length (PyInt.to_str_zero_padded 4 (k + 1)))%nat /\
    ((0 <= k < 9999)%Z ->
     String.length (PyInt.to_str_zero_padded 4 k) = 4%nat /\
     String.length (PyInt.to_str_zero_padded 4 (k + 1)) = 4%nat).
Proof.
  intros Hyear H1 H2.
  destruct (next_offer_number_try_ok _ _ _ _ H1)
    as (obj & s0 & cur & r & Hload & Hcur & Hsave & ->).
  destruct (next_offer_number_try_ok _ _ _ _ H2)
    as (obj2 & s1' & cur2 & r2 & Hload2 & Hcur2 & Hsave2 & ->).
  pose proof (Hstore _ _ _ _ Hsave (VInt 1000)) as Hseen.
  rewrite Hseen in Hload2. injection Hload2 as <- <-.
  rewrite current_suffix_of_int in Hcur2. injection Hcur2 as <-.
  exists obj, s0, (cur + 1)%Z.
  replace (cur + 1 - 1)%Z with cur by lia.
  repeat split; try done.
  - unfold _get_next_offer_number, try_except. by rewrite H1.
  - unfold _get_next_offer_number, try_except. by rewrite H2.
  - by rewrite Hyear.
  - lia.
  - by apply (Hstore _ _ _ _ Hsave2).
  - apply zero_padded_length.
  - apply zero_padded_length.
  - apply zero_padded_four. lia.
  - apply zero_padded_four. lia.
Qed.

(** C10: the call never raises, whatever the two callables do.  When the
    load raises, when the loaded value does not convert to an integer, or
    when the save raises, the result is the fallback; in the first two
    cases the save is never called, so the store is left as the load left
    it.  For a valid clock reading the fallback is ["AN"] followed by a
    time stamp of the form [YYYYMMDD-HHMMSS]: four digits that read as the
    year, two each that read as the month and the day, a hyphen, and two
    digits each that read as the hour, the minute and the second, fifteen
    characters in all. *)
Theorem offer_number_never_raises
    (texts : gmap string string) (now : datetime) (s : S) :
  let fallback := "AN" +:+ strftime_Ymd_HMS now in
  (exists n s', _get_next_offer_number texts now s = (Ok n, s')) /\
  (forall e s1,
      load_admin_setting "offer_number_suffix" (VInt 1000) s = (Raise e, s1) ->
      _get_next_offer_number texts now s = (Ok fallback, s1)) /\
  (forall obj e s1,
      load_admin_setting "offer_number_suffix" (VInt 1000) s = (Ok obj, s1) ->
      current_suffix_of obj = Raise e ->
      _get_next_offer_number texts now s = (Ok fallback, s1)) /\
  (forall obj cur e s1 s2,
      load_admin_setting "offer_number_suffix" (VInt 1000) s = (Ok obj, s1) ->
      current_suffix_of obj = Ok cur ->
      save_admin_setting "offer_number_suffix" (VInt (cur + 1)) s1
      = (Raise e, s2) ->
      _get_next_offer_number texts now s = (Ok fallback, s2)) /\
  (valid_clock now ->
   exists stamp,
     fallback = "AN" +:+ stamp /\
     is_timestamp now stamp /\ String.length stamp = 15%nat).
Proof.
  intros fallback.
  unfold _get_next_offer_number, try_except, next_offer_number_try,
    ebind, elift, eret.
  split; [|split; [|split; [|split]]];
    [| | | |intros Hclock; exists (strftime_Ymd_HMS now);
             split; [reflexivity|];
             split; [by apply strftime_is_timestamp | by apply strftime_length]].
  - destruct (load_admin_setting _ _ s) as [[obj|e] s1]; [|by eauto].
    destruct (current_suffix_of obj) as [cur|e]; [|by eauto].
    destruct (save_admin_setting _ _ s1) as [[r|e] s2]; by eauto.
  - intros e s1 ->. reflexivity.
  - intros obj e s1 -> ->. reflexivity.
  - intros obj cur e s1 s2 -> -> ->. reflexivity.
Qed.

End OfferNumberProps.

(** The map store shows a saved value to the next load. *)
Lemma map_store_law (v : pyval) (s s' : gmap string pyval) (r : pyval) :
  @save_admin_setting _ map_store "offer_number_suffix" v s = (Ok r, s') ->
  forall d, @load_admin_setting _ map_store "offer_number_suffix" d s' = (Ok v, s').
Proof.
  simpl. intros [= <- <-] d. by rewrite lookup_insert_eq.
Qed.

(** C7 as the claim words it fails on a store that holds 9999: the next
    number is [AN2025-10000], whose suffix is not four digits long. *)
Lemma offer_number_suffix_five_digits :
  let r := @_get_next_offer_number plain_builtins _ map_store ∅ clock_2025
             {[ "offer_number_suffix" := VInt 9999 ]} in
  r.1 = Ok "AN2025-10000" /\
  ~ (exists suffix : string,
        String.length suffix = 4%nat /\ r.1 = Ok ("AN2025-" +:+ suffix)).
Proof.
  split; [reflexivity|].
  intros (suffix & Hlen & Heq). vm_compute in Heq.
  injection Heq as <-. discriminate Hlen.
Qed.

(** Two calls on an empty map store: 1001, then 1002. *)
Lemma offer_numbers_increase_witness :
  exists (obj : pyval) (s0 : gmap string pyval) (k : Z),
    @load_admin_setting _ map_store "offer_number_suffix" (VInt 1000) ∅
    = (Ok obj, s0) /\
    @current_suffix_of plain_builtins obj = Ok (k - 1)%Z /\
    @_get_next_offer_number plain_builtins _ map_store ∅ clock_2025 ∅
    = (Ok "AN2025-1001", {[ "offer_number_suffix" := VInt 1001 ]}) /\
    @_get_next_offer_number plain_builtins _ map_store ∅ clock_2025
      {[ "offer_number_suffix" := VInt 1001 ]}
    = (Ok "AN2025-1002", {[ "offer_number_suffix" := VInt 1002 ]}) /\
    "AN2025-1001" = sequential_number (dt_year clock_2025) k /\
    "AN2025-1002" = sequential_number (dt_year clock_2025) (k + 1) /\
    (k < k + 1)%Z /\
    @load_admin_setting _ map_store "offer_number_suffix" (VInt 1000)
      {[ "offer_number_suffix" := VInt 1001 ]}
    = (Ok (VInt k), {[ "offer_number_suffix" := VInt 1001 ]}) /\
    @load_admin_setting _ map_store "offer_number_suffix" (VInt 1000)
      {[ "offer_number_suffix" := VInt 1002 ]}
    = (Ok (VInt (k + 1)), {[ "offer_number_suffix" := VInt 1002 ]}) /\
    (4 <= String.length (PyInt.to_str_zero_padded 4 k))%nat /\
    (4 <= String.length (PyInt.to_str_zero_padded 4 (k + 1)))%nat /\
    ((0 <= k < 9999)%Z ->
     String.length (PyInt.to_str_zero_padded 4 k) = 4%nat /\
     String.length (PyInt.to_str_zero_padded 4 (k + 1)) = 4%nat).
Proof.
  apply (@offer_numbers_increase plain_builtins _ map_store map_store_law
           ∅ clock_2025 clock_2025 ∅
           {[ "offer_number_suffix" := VInt 1001 ]}
           {[ "offer_number_suffix" := VInt 1002 ]}
           "AN2025-1001" "AN2025-1002").
  - reflexivity.
  - vm_compute. reflexivity.
  - vm_compute. reflexivity.
Defined.

(** A stored suffix that is not a number: the time stamp is returned and
    the store is left as it was; the stamp of 3 June 2025, 09:05:07 has
    the form [YYYYMMDD-HHMMSS]. *)
Lemma offer_number_never_raises_witness :
  @_get_next_offer_number plain_builtins _ map_store ∅ clock_2025
    {[ "offer_number_suffix" := VStr "abc" ]}
  = (Ok "AN20250603-090507", {[ "offer_number_suffix" := VStr "abc" ]}) /\
  is_timestamp clock_2025 "20250603-090507".
Proof.
  pose proof (@offer_number_never_raises plain_builtins _ map_store ∅ clock_2025
                {[ "offer_number_suffix" := VStr "abc" ]})
    as (_ & _ & Hconvert & _ & Hstamp).
  split.
  - apply (Hconvert (VStr "abc") ValueError); reflexivity.
  - destruct Hstamp as (stamp & Heq & Hform & _).
    { unfold valid_clock, clock_2025. simpl. lia. }
    assert (Hs : stamp = "20250603-090507")
      by (vm_compute in Heq; by injection Heq).
    rewrite <- Hs. exact Hform.
Defined.

(** ** The formatter does not raise on ordinary values *)

Section TableProps.
Context `{!PyBuiltins} `{!MarkupParser}.

Lemma format_numeric_ok (texts : gmap string string) (unit : string)
    (precision : nat) (v : pyval) (f : spec_float) :
  String.eqb unit "Jahre" = false ->
  exists s, format_numeric texts unit precision v f = Ok s.
Proof.
  intros Hunit. unfold format_numeric. rewrite Hunit.
  destruct (PyFloat.isinf f); eauto.
Qed.

Lemma format_kpi_value_ok (v : pyval) (unit na_text_key : string)
    (precision : nat) (texts_dict : option (gmap string string)) :
  String.eqb unit "Jahre" = false -> formats_ok v = true ->
  exists s, format_kpi_value v unit na_text_key precision texts_dict = Ok s.
Proof.
  intros Hunit Hv. unfold format_kpi_value.
  destruct v as [|b|z|f|s|b|l]; simpl; eauto.
  - unfold formats_ok in Hv. simpl in Hv.
    destruct (PyFloat.of_int (Z.b2z b)) as [f|e]; [|done]. simpl.
    destruct (PyFloat.isnan f); eauto using format_numeric_ok.
  - unfold formats_ok in Hv. simpl in Hv.
    destruct (PyFloat.of_int z) as [f|e]; [|done]. simpl.
    destruct (PyFloat.isnan f); eauto using format_numeric_ok.
  - destruct (PyFloat.isnan f); eauto using format_numeric_ok.
  - destruct (String.eqb s _); eauto.
    destruct (float_of_str _); eauto using format_numeric_ok.
Qed.

(** ** Building paragraphs *)

Lemma Paragraph_new_ok (text style : string) :
  markup_ok text = true ->
  Paragraph_new text style = Ok {| para_text := text; para_style := style |}.
Proof. intros Hok. unfold Paragraph_new. by rewrite Hok. Qed.

Lemma Paragraph_new_inv (text style : string) (p : Paragraph) :
  Paragraph_new text style = Ok p ->
  p = {| para_text := text; para_style := style |} /\ markup_ok text = true.
Proof.
  unfold Paragraph_new. destruct (markup_ok text); [|discriminate].
  by intros [= <-].
Qed.

Lemma Paragraph_new_raises (text style : string) (e : exn) :
  Paragraph_new text style = Raise e ->
  e = ValueError /\ markup_ok text = false.
Proof.
  unfold Paragraph_new. destruct (markup_ok text); [discriminate|].
  by intros [= <-].
Qed.

Lemma result_map_paragraphs_ok {A} (text : A -> string) (style : string)
    (l : list A) :
  Forall (fun a => markup_ok (text a) = true) l ->
  result_map (fun a => Paragraph_new (text a) style) l
  = Ok (map (fun a => {| para_text := text a; para_style := style |}) l).
Proof.
  induction 1 as [|a l Ha _ IH]; [reflexivity|].
  cbn [result_map map]. rewrite (Paragraph_new_ok _ _ Ha). cbn [rbind].
  by rewrite IH.
Qed.

Lemma result_map_paragraphs_inv {A} (text : A -> string) (style : string)
    (l : list A) (ps : list Paragraph) :
  result_map (fun a => Paragraph_new (text a) style) l = Ok ps ->
  ps = map (fun a => {| para_text := text a; para_style := style |}) l /\
  Forall (fun a => markup_ok (text a) = true) l.
Proof.
  revert ps. induction l as [|a l IH]; intros ps.
  - intros [= <-]. by split.
  - cbn [result_map map].
    destruct (Paragraph_new (text a) style) as [p|] eqn:Hp; [|discriminate].
    cbn [rbind].
    destruct (result_map _ l) as [ps'|] eqn:Hps; [|discriminate].
    cbn [rbind]. intros [= <-].
    destruct (Paragraph_new_inv _ _ _ Hp) as [-> Ha].
    destruct (IH _ eq_refl) as [-> Hl]. split; [reflexivity | by constructor].
Qed.

Lemma header_row_inv (texts : gmap string string) (header : list Paragraph) :
  header_row_pdf texts = Ok header -> header = header_cells texts.
Proof.
  intros Hh. by destruct (result_map_paragraphs_inv _ _ _ _ Hh) as [-> _].
Qed.

Lemma header_row_ok (texts : gmap string string) :
  Forall (fun hc => markup_ok hc.1.1.1.1 = true) (header_config_pdf texts) ->
  header_row_pdf texts = Ok (header_cells texts).
Proof. apply (result_map_paragraphs_ok (fun hc => hc.1.1.1.1)). Qed.

Lemma ellipsis_row_inv (texts : gmap string string) (row : list Paragraph) :
  ellipsis_row_pdf texts = Ok row -> row = ellipsis_cells.
Proof.
  intros Hr.
  by destruct (result_map_paragraphs_inv (fun _ => "...") _ _ _ Hr) as [-> _].
Qed.

Lemma ellipsis_row_ok (texts : gmap string string) :
  markup_ok "..." = true -> ellipsis_row_pdf texts = Ok ellipsis_cells.
Proof.
  intros Hok.
  apply (result_map_paragraphs_ok (fun _ => "...") "TableText").
  unfold header_config_pdf. by repeat constructor.
Qed.

(** ** The rows of the years *)

(** What a series delivers is an entry of its list, or [None]. *)
Lemma series_value_cases (ar : gmap string pyval) (key : string) (i : nat) :
  series_value ar key i = VNone \/
  exists l, ar !! key = Some (VList l) /\ In (series_value ar key i) l.
Proof.
  unfold series_value.
  destruct (ar !! key) as [[| | | | | |l]|]; simpl; try (by left).
  destruct (l !! i) as [v|] eqn:Hi; simpl; [|by left].
  right. exists l. split; [reflexivity|].
  apply list_elem_of_In. by apply (list_elem_of_lookup_2 _ _ _ Hi).
Qed.

Lemma sim_row_cells_ok (ar : gmap string pyval) (texts : gmap string string)
    (i : nat) (confs : list (string * option string * string * nat * string)) :
  Forall (column_ok ar texts) confs ->
  exists cells, sim_row_cells ar texts i confs = Ok cells.
Proof.
  induction 1 as [|[[[[h k] u] p] st] confs (Hu & Hnone & Hlist) _ [cells IH]];
    cbn [sim_row_cells].
  - eauto.
  - cbn [fst snd] in Hu, Hnone, Hlist.
    assert (Hv : formats_ok (series_value ar (header_key_str k) i) = true /\
                 cell_text_ok texts "value_not_available_short_pdf" u p
                   (series_value ar (header_key_str k) i)).
    { destruct (series_value_cases ar (header_key_str k) i)
        as [->|(l & Hl & Hin)]; [by split|].
      specialize (Hlist l Hl). rewrite List.Forall_forall in Hlist.
      by apply Hlist. }
    destruct Hv as [Hfmt Htext].
    destruct (format_kpi_value_ok _ u "value_not_available_short_pdf" p
                (Some texts) Hu Hfmt) as [s Hs].
    rewrite Hs. cbn [rbind]. rewrite (Paragraph_new_ok _ _ (Htext s Hs)).
    cbn [rbind]. rewrite IH. cbn [rbind]. eauto.
Qed.

Lemma sim_rows_S (ar : gmap string pyval) (texts : gmap string string)
    (count i : nat) :
  sim_rows ar texts i (Datatypes.S count)
  = (year_cell <- Paragraph_new (PyInt.to_str (Z.of_nat i + 1)) "TableText" ;;
     cells <- sim_row_cells ar texts i (tail (header_config_pdf texts)) ;;
     rows <- sim_rows ar texts (Datatypes.S i) count ;;
     Ok ((year_cell :: cells) :: rows)).
Proof. reflexivity. Qed.

(** The rows that are returned are one per year, each with its year
    number in front. *)
Lemma sim_rows_inv (ar : gmap string pyval) (texts : gmap string string)
    (count i : nat) (rows : list (list Paragraph)) :
  sim_rows ar texts i count = Ok rows ->
  length rows = count /\ Forall year_row rows.
Proof.
  revert i rows. induction count as [|count IH]; intros i rows.
  - intros [= <-]. by split.
  - rewrite sim_rows_S.
    destruct (Paragraph_new _ _) as [year_cell|] eqn:Hyear; [|discriminate].
    cbn [rbind].
    destruct (sim_row_cells ar texts i _) as [cells|]; [|discriminate].
    cbn [rbind].
    destruct (sim_rows ar texts (Datatypes.S i) count) as [rest|] eqn:Hrest;
      [|discriminate].
    cbn [rbind]. intros [= <-]. destruct (IH _ _ Hrest) as [Hlen Hrows].
    destruct (Paragraph_new_inv _ _ _ Hyear) as [-> _].
    split; [cbn [length]; by rewrite Hlen|].
    constructor; [|exact Hrows]. by eexists _, _.
Qed.

Lemma sim_rows_ok (ar : gmap string pyval) (texts : gmap string string)
    (count i : nat) :
  (forall k : Z, markup_ok (PyInt.to_str k) = true) ->
  Forall (column_ok ar texts) (tail (header_config_pdf texts)) ->
  exists rows, sim_rows ar texts i count = Ok rows.
Proof.
  intros Hyears Hconfs. revert i.
  induction count as [|count IH]; intros i.
  - by exists [].
  - rewrite sim_rows_S. rewrite (Paragraph_new_ok _ _ (Hyears _)).
    cbn [rbind].
    destruct (sim_row_cells_ok ar texts i _ Hconfs) as [cells ->].
    destruct (IH (Datatypes.S i)) as (rows & ->).
    cbn [rbind]. eauto.
Qed.

(** ** The simulation table *)

Lemma cumulative_display_series (ar : gmap string pyval) (eff : Z) :
  list_or_absent (ar !! "cumulative_cash_flows_sim") ->
  cumulative_display ar eff
  = Ok (display_as_claimed (ar !! "cumulative_cash_flows_sim") eff).
Proof.
  unfold cumulative_display, display_as_claimed, list_or_absent.
  destruct (ar !! "cumulative_cash_flows_sim") as [[| | | | | |l]|];
    simpl; try done.
  intros _. destruct l as [|v l]; simpl.
  - destruct (eff + 1)%Z eqn:E; [|done..].
    by replace eff with (-1)%Z by lia.
  - destruct (eff + 1)%Z; try done. by destruct (_ =? _)%positive.
Qed.

Lemma series_entry_list_or_absent (entry : option pyval) :
  series_entry_ok entry -> list_or_absent entry.
Proof. by destruct entry as [[| | | | | |l]|]. Qed.

(** What a call that returns has done: the header was built and the
    period read; for a period of zero the table is the header and the
    dictionary is as it was; otherwise the display series was written,
    and the table is the header, the rows of the years and, when years
    are left out, the ellipsis row. *)
Lemma simulation_table_returns (texts : gmap string string) (num : Z)
    (ar ar_out : gmap string pyval) (rows : list (list Paragraph)) :
  _prepare_simulation_table_for_pdf texts num ar = (Ok rows, ar_out) ->
  exists eff,
    sim_period_of ar = Ok eff /\
    header_row_pdf texts = Ok (header_cells texts) /\
    if (eff =? 0)%Z then rows = [header_cells texts] /\ ar_out = ar
    else
      exists d data,
        cumulative_display ar eff = Ok d /\
        ar_out = <["cumulative_cash_flows_sim_display" := d]> ar /\
        sim_rows ar_out texts 0 (Z.to_nat (Z.min eff num)) = Ok data /\
        rows = [header_cells texts] ++ data ++
               (if (num <? eff)%Z then [ellipsis_cells] else []).
Proof.
  unfold _prepare_simulation_table_for_pdf, sim_period_of.
  destruct (header_row_pdf texts) as [header|] eqn:Hheader; [|discriminate].
  apply header_row_inv in Hheader as ->.
  destruct (py_int _) as [eff|]; [|discriminate].
  destruct (eff =? 0)%Z eqn:Hzero.
  { intros [= <- <-]. exists eff. by rewrite Hzero. }
  destruct (cumulative_display ar eff) as [d|] eqn:Hd; [|discriminate].
  destruct (sim_rows _ _ _ _) as [data|] eqn:Hdata; [|discriminate].
  destruct (num <? eff)%Z eqn:Hmore.
  - destruct (ellipsis_row_pdf texts) as [ell|] eqn:Hell; [|discriminate].
    apply ellipsis_row_inv in Hell as ->.
    intros [= <- <-]. exists eff. rewrite Hzero.
    split; [reflexivity|]. split; [reflexivity|]. exists d, data.
    rewrite Hmore. by repeat split.
  - intros [= <- <-]. exists eff. rewrite Hzero.
    split; [reflexivity|]. split; [reflexivity|]. exists d, data.
    rewrite Hmore, app_nil_r. by repeat split.
Qed.

Lemma display_as_claimed_cases (entry : option pyval) (eff : Z) :
  exists l,
    display_as_claimed entry eff = VList l /\
    forall v, In v l ->
              v = VNone \/ exists l', entry = Some (VList l') /\ In v l'.
Proof.
  unfold display_as_claimed.
  assert (Hnone : forall v, In v (replicate (Z.to_nat eff) VNone) ->
            v = VNone \/ exists l', entry = Some (VList l') /\ In v l').
  { intros v Hv. left. apply list_elem_of_In in Hv.
    by apply elem_of_replicate in Hv as [-> _]. }
  destruct entry as [[| | | | | |l]|]; try (by eexists).
  destruct (_ =? _)%Z; [|by eexists].
  exists (tail l). split; [reflexivity|]. intros v Hv. right.
  exists l. split; [reflexivity|]. destruct l; [done | by right].
Qed.

(** The columns can be built, in the dictionary with the display series
    written to it, when the series are lists of values the formatter
    accepts and the texts are accepted as markup. *)
Lemma columns_ok (texts : gmap string string) (ar : gmap string pyval)
    (eff : Z) :
  (forall key, In key sim_series_keys -> series_entry_ok (ar !! key)) ->
  sim_texts_accepted texts ar ->
  Forall (column_ok
            (<["cumulative_cash_flows_sim_display" :=
                 display_as_claimed (ar !! "cumulative_cash_flows_sim") eff]> ar)
            texts)
         (tail (header_config_pdf texts)).
Proof.
  intros Hseries (_ & _ & _ & Hcells).
  assert (Hplain : forall key unit precision,
    In (key, unit, precision) sim_series_formats ->
    forall l, ar !! key = Some (VList l) ->
    Forall (fun v => formats_ok v = true /\
                     cell_text_ok texts "value_not_available_short_pdf" unit
                       precision v) l).
  { intros key unit precision Hin l Hl.
    destruct (Hcells key unit precision Hin) as [_ Htexts].
    specialize (Htexts l Hl).
    assert (Hkey : In key sim_series_keys).
    { cbv [In sim_series_formats] in Hin. cbv [In sim_series_keys].
      repeat (destruct Hin as [[= <- _ _]|Hin]; [tauto|]). destruct Hin. }
    specialize (Hseries key Hkey). rewrite Hl in Hseries.
    cbn [series_entry_ok] in Hseries.
    rewrite List.Forall_forall in Hseries, Htexts.
    apply List.Forall_forall. intros v Hv. split; [by apply Hseries|].
    by apply Htexts. }
  unfold header_config_pdf, tail.
  repeat (apply List.Forall_cons; [|]); [..|apply List.Forall_nil];
    (split; [reflexivity|]); cbn [fst snd header_key_str].
  - split; [apply (Hcells "annual_productions_sim"); cbv; tauto|].
    intros l. rewrite lookup_insert_ne by done.
    apply Hplain. cbv; tauto.
  - split; [apply (Hcells "annual_benefits_sim"); cbv; tauto|].
    intros l. rewrite lookup_insert_ne by done.
    apply Hplain. cbv; tauto.
  - split; [apply (Hcells "annual_maintenance_costs_sim"); cbv; tauto|].
    intros l. rewrite lookup_insert_ne by done.
    apply Hplain. cbv; tauto.
  - split; [apply (Hcells "annual_cash_flows_sim"); cbv; tauto|].
    intros l. rewrite lookup_insert_ne by done.
    apply Hplain. cbv; tauto.
  - assert (Hin : In ("cumulative_cash_flows_sim", "€", 2%nat)
                     sim_series_formats) by (cbv; tauto).
    destruct (Hcells _ _ _ Hin) as [Hnone _].
    split; [exact Hnone|].
    intros l. rewrite lookup_insert_eq. intros [= Hd].
    destruct (display_as_claimed_cases
                (ar !! "cumulative_cash_flows_sim") eff) as (l0 & Hl0 & Hfrom).
    rewrite Hl0 in Hd. injection Hd as ->.
    apply List.Forall_forall. intros v Hv.
    destruct (Hfrom v Hv) as [->|(l' & Hl' & Hv')]; [by split|].
    specialize (Hplain _ _ _ Hin l' Hl').
    rewrite List.Forall_forall in Hplain. by apply Hplain.
Qed.

(** The call returns when the period can be read, the series are absent
    or lists of values the formatter accepts, and the texts of the table
    are accepted as markup. *)
Lemma simulation_table_total (texts : gmap string string) (num : Z)
    (ar : gmap string pyval) (eff : Z) :
  (forall key, In key sim_series_keys -> series_entry_ok (ar !! key)) ->
  sim_texts_accepted texts ar ->
  sim_period_of ar = Ok eff ->
  exists rows ar_out,
    _prepare_simulation_table_for_pdf texts num ar = (Ok rows, ar_out).
Proof.
  intros Hseries Hacc Hperiod.
  pose proof (columns_ok texts ar eff Hseries Hacc) as Hcols.
  destruct Hacc as (Hheader & Hdots & Hyears & _).
  unfold _prepare_simulation_table_for_pdf.
  rewrite (header_row_ok texts Hheader).
  unfold sim_period_of in Hperiod. rewrite Hperiod.
  destruct (eff =? 0)%Z; [by eauto|].
  rewrite cumulative_display_series
    by (apply series_entry_list_or_absent, Hseries; cbv; tauto).
  destruct (sim_rows_ok _ texts (Z.to_nat (Z.min eff num)) 0 Hyears Hcols)
    as [rows ->].
  rewrite (ellipsis_row_ok texts Hdots).
  destruct (num <? eff)%Z; eauto.
Qed.

Lemma string_of_uint_digits (d : Decimal.uint) :
  all_digits (NilZero.string_of_uint d) = true.
Proof. destruct d; try reflexivity; apply string_of_uint_all_digits. Qed.

(** A year number is not the text of the ellipsis row. *)
Lemma to_str_not_dots (k : Z) : PyInt.to_str k <> "...".
Proof.
  unfold PyInt.to_str. destruct k as [|p|p]; simpl Z.to_int;
    unfold NilZero.string_of_int.
  - discriminate.
  - intros Heq. pose proof (string_of_uint_digits (Pos.to_uint p)) as Hd.
    rewrite Heq in Hd. discriminate Hd.
  - discriminate.
Qed.

Lemma ellipsis_cells_not_year : ~ year_row ellipsis_cells.
Proof.
  intros (k & cells & Heq). injection Heq as Heq _.
  by apply (to_str_not_dots k).
Qed.

Lemma ellipsis_cells_not_header (texts : gmap string string) :
  ellipsis_cells <> header_cells texts.
Proof. intros Heq. injection Heq as _ Heq _. discriminate Heq. Qed.

(** C2: the row counts of the simulation table for ten displayed years.
    Whenever the call returns a table: with a simulated period of 15 the
    table is the header, ten year rows and the ellipsis row, twelve rows;
    with 8 it is the header and eight year rows, nine rows, none of them
    the ellipsis row; with 0 it is the header alone.  And the call does
    return a table when the period can be read, the series are absent or
    lists of values the formatter accepts (of any length, 15 entries
    included), and the texts of the table (headers, year numbers, cell
    texts, ellipsis) are markup that [Paragraph] accepts. *)
Theorem simulation_table_rows (texts : gmap string string)
    (ar : gmap string pyval) :
  (forall rows,
      (_prepare_simulation_table_for_pdf texts 10 ar).1 = Ok rows ->
      (sim_period_of ar = Ok 15%Z ->
       exists data,
         rows = [header_cells texts] ++ data ++ [ellipsis_cells] /\
         length data = 10%nat /\ Forall year_row data /\
         length rows = 12%nat) /\
      (sim_period_of ar = Ok 8%Z ->
       exists data,
         rows = [header_cells texts] ++ data /\
         length data = 8%nat /\ Forall year_row data /\ length rows = 9%nat /\
         ~ In ellipsis_cells rows) /\
      (sim_period_of ar = Ok 0%Z -> rows = [header_cells texts])) /\
  ((forall key, In key sim_series_keys -> series_entry_ok (ar !! key)) ->
   sim_texts_accepted texts ar ->
   (exists eff, sim_period_of ar = Ok eff) ->
   exists rows, (_prepare_simulation_table_for_pdf texts 10 ar).1 = Ok rows).
Proof.
  split.
  - intros rows Hrows.
    destruct (_prepare_simulation_table_for_pdf texts 10 ar)
      as [r ar_out] eqn:Hcall.
    cbn [fst] in Hrows. subst r.
    destruct (simulation_table_returns _ _ _ _ _ Hcall)
      as (eff & Hperiod & _ & Hshape).
    split; [|split]; intros Heff; rewrite Heff in Hperiod;
      injection Hperiod as <-; cbn [Z.eqb] in Hshape.
    + destruct Hshape as (d & data & _ & _ & Hdata & ->).
      destruct (sim_rows_inv _ _ _ _ _ Hdata) as [Hlen Hyears].
      exists data. change (10 <? 15)%Z with true.
      split; [reflexivity|]. split; [exact Hlen|]. split; [exact Hyears|].
      cbn [app length]. rewrite length_app, Hlen. reflexivity.
    + destruct Hshape as (d & data & _ & _ & Hdata & ->).
      destruct (sim_rows_inv _ _ _ _ _ Hdata) as [Hlen Hyears].
      exists data. change (10 <? 8)%Z with false. rewrite app_nil_r.
      split; [reflexivity|]. split; [exact Hlen|]. split; [exact Hyears|].
      split; [cbn [app length]; by rewrite Hlen|].
      intros [Hhead|Hdata'].
      * by apply (ellipsis_cells_not_header texts).
      * apply ellipsis_cells_not_year.
        rewrite List.Forall_forall in Hyears. by apply Hyears.
    + by destruct Hshape as [-> _].
  - intros Hseries Hacc [eff Hperiod].
    destruct (simulation_table_total texts 10 ar eff Hseries Hacc Hperiod)
      as (rows & ar_out & Hcall).
    exists rows. by rewrite Hcall.
Qed.

(** C9, amended: when the header row can be built, the simulated period
    is not zero and the cumulative series is absent or a list, the call
    leaves in the dictionary it was given the entry
    ['cumulative_cash_flows_sim_display']: the tail of the cumulative
    series when that has one entry more than the period, a list of [None]
    otherwise, one per simulated year when the period is positive.
    Nothing else in the dictionary changes; the write happens even if a
    later cell fails to format or to parse.  When the period is zero the
    dictionary is left as it is, for every input; and when a header text
    is not accepted as markup the call raises before the period is read
    and leaves the dictionary as it is. *)
Theorem simulation_table_writes_display (texts : gmap string string)
    (num : Z) (ar : gmap string pyval) :
  (forall eff,
      (exists header, header_row_pdf texts = Ok header) ->
      sim_period_of ar = Ok eff -> eff <> 0%Z ->
      list_or_absent (ar !! "cumulative_cash_flows_sim") ->
      let written := display_as_claimed (ar !! "cumulative_cash_flows_sim") eff in
      (_prepare_simulation_table_for_pdf texts num ar).2
      = <["cumulative_cash_flows_sim_display" := written]> ar /\
      (_prepare_simulation_table_for_pdf texts num ar).2
        !! "cumulative_cash_flows_sim_display" = Some written /\
      ((0 < eff)%Z ->
       exists entries,
         written = VList entries /\ Z.of_nat (length entries) = eff)) /\
  (sim_period_of ar = Ok 0%Z ->
   (_prepare_simulation_table_for_pdf texts num ar).2 = ar) /\
  (forall e,
      header_row_pdf texts = Raise e ->
      _prepare_simulation_table_for_pdf texts num ar = (Raise e, ar)).
Proof.
  split; [|split].
  - intros eff [header Hheader] Hperiod Hnz Hentry written.
    assert (Hstate : (_prepare_simulation_table_for_pdf texts num ar).2
                     = <["cumulative_cash_flows_sim_display" := written]> ar).
    { unfold _prepare_simulation_table_for_pdf. rewrite Hheader.
      unfold sim_period_of in Hperiod. rewrite Hperiod.
      destruct (eff =? 0)%Z eqn:E; [apply Z.eqb_eq in E; done|].
      rewrite (cumulative_display_series ar eff Hentry). fold written.
      destruct (sim_rows _ _ _ _); [|reflexivity].
      destruct (num <? eff)%Z; [|reflexivity].
      by destruct (ellipsis_row_pdf texts). }
    split; [exact Hstate|]. split.
    + rewrite Hstate. apply lookup_insert_eq.
    + intros Hpos. subst written. unfold display_as_claimed.
      assert (Hnone : Z.of_nat (length (replicate (Z.to_nat eff) VNone)) = eff)
        by (rewrite length_replicate; lia).
      destruct (ar !! "cumulative_cash_flows_sim") as [[| | | | | |l]|];
        try (by destruct Hentry);
        [|by exists (replicate (Z.to_nat eff) VNone)].
      destruct (Z.of_nat (length l) =? eff + 1)%Z eqn:E;
        [|by exists (replicate (Z.to_nat eff) VNone)].
      apply Z.eqb_eq in E. eexists. split; [reflexivity|].
      destruct l; simpl in *; lia.
  - intros Hperiod. unfold _prepare_simulation_table_for_pdf.
    destruct (header_row_pdf texts); [|reflexivity].
    unfold sim_period_of in Hperiod. by rewrite Hperiod.
  - intros e Hheader. unfold _prepare_simulation_table_for_pdf.
    by rewrite Hheader.
Qed.

End TableProps.

(** ** The plain parser on the texts of the examples *)

Lemma digit_not_lt (c : ascii) :
  PyStr.is_digit c = true -> Ascii.eqb "<" c = false.
Proof.
  destruct c as [b0 b1 b2 b3 b4 b5 b6 b7].
  destruct b0, b1, b2, b3, b4, b5, b6, b7; vm_compute; congruence.
Qed.

Lemma digits_plain (s : string) :
  all_digits s = true -> @markup_ok plain_markup s = true.
Proof.
  cbn [markup_ok plain_markup]. intros Hd. apply negb_true_iff.
  induction s as [|c r IH]; [reflexivity|].
  cbn [all_digits] in Hd. apply andb_prop in Hd as [Hc Hr].
  cbn [PyStr.contains_char]. by rewrite (digit_not_lt c Hc), (IH Hr).
Qed.

Lemma to_str_plain (k : Z) : @markup_ok plain_markup (PyInt.to_str k) = true.
Proof.
  unfold PyInt.to_str. destruct k as [|p|p]; simpl Z.to_int;
    unfold NilZero.string_of_int.
  - reflexivity.
  - apply digits_plain, string_of_uint_digits.
  - pose proof (digits_plain _ (string_of_uint_digits (Pos.to_uint p))) as Hd.
    cbn [markup_ok plain_markup] in *. apply negb_true_iff in Hd.
    apply negb_true_iff. cbn [PyStr.contains_char]. by rewrite Hd.
Qed.

(** C9 as the claim words it fails: with a simulated period of zero the
    call returns before the write, and the dictionary is as it was. *)
Lemma simulation_table_zero_period_no_write :
  let ar := sim_input 0 16 in
  let out :=
    @_prepare_simulation_table_for_pdf plain_builtins plain_markup ∅ 10 ar in
  out.2 = ar /\
  ~ (exists written, out.2 !! "cumulative_cash_flows_sim_display" = Some written).
Proof. split; [reflexivity|]. intros [written Hw]. discriminate Hw. Qed.

Lemma sim_input_series_ok (years : Z) (n : nat) (key : string) :
  In key sim_series_keys -> series_entry_ok (sim_input years n !! key).
Proof.
  assert (Hall : Forall (fun v => formats_ok v = true)
                        (replicate n (VFloat float_1234_5))).
  { apply Forall_forall. by intros v [-> _]%elem_of_replicate. }
  intros Hin. cbv [In sim_series_keys] in Hin.
  destruct Hin as [<-|[<-|[<-|[<-|[<-|[]]]]]]; exact Hall.
Qed.

(** The texts of the table for [sim_input] and the built-in texts hold no
    angle bracket. *)
Lemma sim_input_texts_accepted (years : Z) (n : nat) :
  @sim_texts_accepted plain_builtins plain_markup ∅ (sim_input years n).
Proof.
  split; [by repeat constructor|]. split; [reflexivity|].
  split; [apply to_str_plain|].
  intros key unit precision Hin. cbv [In sim_series_formats] in Hin.
  assert (Hcell : forall l,
    sim_input years n !! key = Some (VList l) ->
    l = replicate n (VFloat float_1234_5)).
  { intros l.
    repeat (destruct Hin as [[= <- _ _]|Hin]; [by intros [= <-]|]).
    destruct Hin. }
  assert (Hfmt : forall v,
    v = VNone \/ v = VFloat float_1234_5 ->
    @cell_text_ok plain_builtins plain_markup ∅ "value_not_available_short_pdf"
      unit precision v).
  { intros v Hv s.
    repeat (destruct Hin as [Heq|Hin];
            [injection Heq as _ <- <-;
             destruct Hv as [-> | ->]; vm_compute; by intros [= <-]|]).
    destruct Hin. }
  split; [apply Hfmt; by left|].
  intros l Hl. rewrite (Hcell l Hl). apply List.Forall_forall.
  intros v Hv. apply Hfmt. right.
  apply list_elem_of_In in Hv. by apply elem_of_replicate in Hv as [-> _].
Qed.

(** Fifteen simulated years with series of fifteen entries: twelve rows. *)
Lemma simulation_table_rows_witness :
  exists rows data,
    (@_prepare_simulation_table_for_pdf plain_builtins plain_markup ∅ 10
       (sim_input 15 15)).1 = Ok rows /\
    rows = [header_cells ∅] ++ data ++ [ellipsis_cells] /\
    length data = 10%nat /\ Forall year_row data /\ length rows = 12%nat.
Proof.
  destruct (@simulation_table_rows plain_builtins plain_markup ∅
              (sim_input 15 15)) as [Hshape Htotal].
  destruct (Htotal (sim_input_series_ok 15 15) (sim_input_texts_accepted 15 15)
              (ex_intro _ 15%Z eq_refl)) as [rows Hrows].
  destruct (proj1 (Hshape rows Hrows) eq_refl) as (data & Hdata).
  exists rows, data. split; [exact Hrows | exact Hdata].
Defined.

(** Eight simulated years with a cumulative series of nine entries: the
    display series is the tail of the cumulative series. *)
Lemma simulation_table_writes_display_witness :
  (@_prepare_simulation_table_for_pdf plain_builtins plain_markup ∅ 10
     (sim_input 8 9)).2
    !! "cumulative_cash_flows_sim_display" = Some (float_list 8).
Proof.
  refine (proj1 (proj2 (proj1
    (@simulation_table_writes_display plain_builtins plain_markup ∅ 10
       (sim_input 8 9)) 8%Z _ _ _ _))).
  - eexists. reflexivity.
  - reflexivity.
  - lia.
  - exact I.
Defined.


(** ** The cost table *)

Section CostProps.
Context `{!PyBuiltins} `{!MarkupParser}.

(** A turn of the loop leaves the table as it is or adds rows at the end. *)
Lemma cost_item_step_extends (ar : gmap string pyval)
    (texts : gmap string string) (item : string * string * bool * string)
    (acc acc' : list (list Paragraph)) :
  cost_item_step ar texts item acc = Ok acc' -> exists more, acc' = acc ++ more.
Proof.
  unfold cost_item_step.
  destruct (dict_get ar item.1.1.1) eqn:Hv;
    try (intros [= <-]; exists []; by rewrite app_nil_r);
    (destruct (_ && _);
     [intros [= <-]; exists []; by rewrite app_nil_r|];
     destruct (cost_row _ _ _) as [row|e]; simpl; [|done];
     intros [= <-]; by eexists).
Qed.

Lemma cost_table_loop_extends (ar : gmap string pyval)
    (texts : gmap string string) (items : list (string * string * bool * string))
    (acc rows : list (list Paragraph)) :
  cost_table_loop ar texts items acc = Ok rows -> exists more, rows = acc ++ more.
Proof.
  revert acc. induction items as [|item items IH]; intros acc; simpl.
  - intros [= <-]. exists []. by rewrite app_nil_r.
  - destruct (cost_item_step ar texts item acc) as [acc'|e] eqn:Hstep; [|done].
    simpl. intros Hloop.
    destruct (cost_item_step_extends _ _ _ _ _ Hstep) as [m1 ->].
    destruct (IH _ Hloop) as [m2 ->]. exists (m1 ++ m2). by rewrite app_assoc.
Qed.

(** An item whose turn adds nothing can be left out of the walk. *)
Lemma cost_table_loop_skip (ar : gmap string pyval)
    (texts : gmap string string) (item : string * string * bool * string)
    (before after : list (string * string * bool * string))
    (acc : list (list Paragraph)) :
  (forall acc', cost_item_step ar texts item acc' = Ok acc') ->
  cost_table_loop ar texts (before ++ item :: after) acc
  = cost_table_loop ar texts (before ++ after) acc.
Proof.
  intros Hskip. revert acc.
  induction before as [|b before IH]; intros acc; simpl.
  - by rewrite Hskip.
  - destruct (cost_item_step ar texts b acc); simpl; [apply IH | done].
Qed.

(** A row that an item's turn adds is in the finished table. *)
Lemma cost_table_loop_present (ar : gmap string pyval)
    (texts : gmap string string) (item : string * string * bool * string)
    (row : list Paragraph) (items : list (string * string * bool * string))
    (acc rows : list (list Paragraph)) :
  In item items ->
  (forall acc', cost_item_step ar texts item acc' = Ok (acc' ++ [row])) ->
  cost_table_loop ar texts items acc = Ok rows -> In row rows.
Proof.
  intros Hin Hadd. revert acc.
  induction items as [|i items IH]; intros acc; simpl; [destruct Hin|].
  destruct Hin as [->|Hin].
  - rewrite Hadd. simpl. intros Hloop.
    destruct (cost_table_loop_extends _ _ _ _ _ Hloop) as [more ->].
    apply in_or_app. left. apply in_or_app. right. by left.
  - destruct (cost_item_step ar texts i acc) as [acc'|e]; simpl; [|done].
    by apply IH.
Qed.

(** The row of an item, from its label, unit, precision and style. *)
Lemma cost_row_eq (texts : gmap string string)
    (item : string * string * bool * string) (v : pyval) :
  cost_row texts item v
  = (formatted <-
       format_kpi_value v (cost_unit item) "not_applicable_short"
         (cost_precision item) (Some texts) ;;
     label_cell <- Paragraph_new (cost_label texts item) "TableLabel" ;;
     value_cell <- Paragraph_new formatted (cost_value_style item) ;;
     Ok [ label_cell; value_cell ]).
Proof. by destruct item as [[[rk lk] euro] st]. Qed.

Lemma cost_zero_text (texts : gmap string string)
    (item : string * string * bool * string) :
  In item cost_items_ordered_pdf ->
  format_kpi_value (VFloat (S754_zero false)) (cost_unit item)
    "not_applicable_short" (cost_precision item) (Some texts)
  = Ok (zero_cost_text item) /\
  [ {| para_text := cost_label texts item; para_style := "TableLabel" |};
    {| para_text := zero_cost_text item;
       para_style := cost_value_style item |} ]
  = zero_cost_row texts item.
Proof.
  intros Hin. cbv [In cost_items_ordered_pdf] in Hin.
  repeat (destruct Hin as [<-|Hin]; [by split|]). destruct Hin.
Qed.

(** The row built for a value of [0.0], item by item, when its two texts
    are accepted as markup. *)
Lemma cost_row_zero (texts : gmap string string)
    (item : string * string * bool * string) :
  In item cost_items_ordered_pdf ->
  markup_ok (cost_label texts item) = true ->
  markup_ok (zero_cost_text item) = true ->
  cost_row texts item (VFloat (S754_zero false)) = Ok (zero_cost_row texts item).
Proof.
  intros Hin Hlabel Hvalue. rewrite cost_row_eq.
  destruct (cost_zero_text texts item Hin) as [-> <-]. cbn [rbind].
  rewrite (Paragraph_new_ok _ _ Hlabel). cbn [rbind].
  by rewrite (Paragraph_new_ok _ _ Hvalue).
Qed.

(** The row cannot be built when one of its two texts is not accepted. *)
Lemma cost_row_zero_raises (texts : gmap string string)
    (item : string * string * bool * string) :
  In item cost_items_ordered_pdf ->
  markup_ok (cost_label texts item) = false \/
  markup_ok (zero_cost_text item) = false ->
  cost_row texts item (VFloat (S754_zero false)) = Raise ValueError.
Proof.
  intros Hin Hbad. rewrite cost_row_eq.
  destruct (cost_zero_text texts item Hin) as [-> _]. cbn [rbind].
  unfold Paragraph_new.
  destruct (markup_ok (cost_label texts item)); [|reflexivity].
  destruct Hbad as [? | ->]; [discriminate | reflexivity].
Qed.

Lemma cost_row_ok (texts : gmap string string)
    (item : string * string * bool * string) (v : pyval) :
  formats_ok v = true ->
  markup_ok (cost_label texts item) = true ->
  cell_text_ok texts "not_applicable_short" (cost_unit item)
    (cost_precision item) v ->
  exists row, cost_row texts item v = Ok row.
Proof.
  intros Hv Hlabel Htext. rewrite cost_row_eq.
  assert (Hunit : String.eqb (cost_unit item) "Jahre" = false).
  { unfold cost_unit. destruct item.1.2; [reflexivity|].
    by destruct (String.eqb _ "vat_rate_percent"). }
  destruct (format_kpi_value_ok v (cost_unit item) "not_applicable_short"
              (cost_precision item) (Some texts) Hunit Hv) as [s Hs].
  rewrite Hs. cbn [rbind]. rewrite (Paragraph_new_ok _ _ Hlabel).
  cbn [rbind]. rewrite (Paragraph_new_ok _ _ (Htext s Hs)). cbn [rbind].
  eauto.
Qed.

(** The table is built whenever every value converts to a float and the
    texts of the rows are accepted as markup. *)
Lemma cost_table_loop_total (ar : gmap string pyval)
    (texts : gmap string string) (items : list (string * string * bool * string))
    (acc : list (list Paragraph)) :
  (forall key, formats_ok (dict_get ar key) = true) ->
  (forall item, In item items ->
     markup_ok (cost_label texts item) = true /\
     cell_text_ok texts "not_applicable_short" (cost_unit item)
       (cost_precision item) (dict_get ar item.1.1.1)) ->
  exists rows, cost_table_loop ar texts items acc = Ok rows.
Proof.
  intros Hok. revert acc.
  induction items as [|item items IH]; intros acc Hacc; simpl; [eauto|].
  assert (Hstep : exists acc', cost_item_step ar texts item acc = Ok acc').
  { unfold cost_item_step. specialize (Hok item.1.1.1).
    destruct (Hacc item (or_introl eq_refl)) as [Hlabel Htext].
    destruct (dict_get ar item.1.1.1) eqn:Hv; eauto;
      (destruct (_ && _); [eauto|];
       destruct (cost_row_ok texts item _ Hok Hlabel Htext) as [row ->];
       simpl; eauto). }
  destruct Hstep as [acc' ->]. simpl. apply IH.
  intros i Hi. apply Hacc. by right.
Qed.

(** C3: a cost item whose value is exactly [0.0].  When its key is not in
    the always-show list its turn of the loop adds nothing, and the table
    is the one built without the item.  When its key is in the list (as
    [subtotal_netto] is) and its label and the text of its value are
    markup that [Paragraph] accepts, its turn adds the row with the label
    and the value ["0,00 €"] (["0,0 %"] for the VAT rate), and that row is
    in the table the function returns; the function does return a table
    when every value of the breakdown converts to a float and the texts of
    all rows are accepted.  When the label or the value text is not
    accepted, the turn raises a [ValueError] and the function returns no
    table. *)
Theorem cost_table_zero_rows (texts : gmap string string)
    (ar : gmap string pyval) (item : string * string * bool * string) :
  In item cost_items_ordered_pdf ->
  ar !! item.1.1.1 = Some (VFloat (S754_zero false)) ->
  (in_list item.1.1.1 always_show_keys = false ->
   (forall acc, cost_item_step ar texts item acc = Ok acc) /\
   (forall before after,
       cost_items_ordered_pdf = before ++ item :: after ->
       _prepare_cost_table_for_pdf ar texts
       = cost_table_loop ar texts (before ++ after) [])) /\
  (in_list item.1.1.1 always_show_keys = true ->
   markup_ok (cost_label texts item) = true ->
   markup_ok (zero_cost_text item) = true ->
   (forall acc,
       cost_item_step ar texts item acc = Ok (acc ++ [zero_cost_row texts item])) /\
   (forall rows,
       _prepare_cost_table_for_pdf ar texts = Ok rows ->
       In (zero_cost_row texts item) rows) /\
   ((forall key, formats_ok (dict_get ar key) = true) ->
    cost_texts_accepted texts ar ->
    exists rows,
      _prepare_cost_table_for_pdf ar texts = Ok rows /\
      In (zero_cost_row texts item) rows)) /\
  (in_list item.1.1.1 always_show_keys = true ->
   markup_ok (cost_label texts item) = false \/
   markup_ok (zero_cost_text item) = false ->
   (forall acc, cost_item_step ar texts item acc = Raise ValueError) /\
   exists e, _prepare_cost_table_for_pdf ar texts = Raise e).
Proof.
  intros Hin Hval.
  assert (Hstep : forall acc,
    cost_item_step ar texts item acc
    = if in_list item.1.1.1 always_show_keys
      then row <- cost_row texts item (VFloat (S754_zero false)) ;;
           Ok (acc ++ [row])
      else Ok acc).
  { intros acc. unfold cost_item_step, dict_get. rewrite Hval.
    cbn [default from_option id py_eq_zero PyFloat.is_zero andb].
    by destruct (in_list _ always_show_keys). }
  split; [|split]; intros Hshow; rewrite Hshow in Hstep.
  - split; [exact Hstep|].
    intros before after Hsplit. unfold _prepare_cost_table_for_pdf.
    rewrite Hsplit. by apply cost_table_loop_skip.
  - intros Hlabel Hvalue.
    rewrite (cost_row_zero texts item Hin Hlabel Hvalue) in Hstep.
    cbn [rbind] in Hstep.
    assert (Hpresent : forall rows,
      _prepare_cost_table_for_pdf ar texts = Ok rows ->
      In (zero_cost_row texts item) rows).
    { intros rows Hrows. unfold _prepare_cost_table_for_pdf in Hrows.
      by apply (cost_table_loop_present ar texts item _ _ _ _ Hin Hstep Hrows). }
    split; [exact Hstep|]. split; [exact Hpresent|].
    intros Hok Hacc.
    destruct (cost_table_loop_total ar texts cost_items_ordered_pdf [] Hok Hacc)
      as [rows Hrows].
    exists rows. split; [exact Hrows | by apply Hpresent].
  - intros Hbad.
    rewrite (cost_row_zero_raises texts item Hin Hbad) in Hstep.
    cbn [rbind] in Hstep. split; [exact Hstep|].
    unfold _prepare_cost_table_for_pdf.
    assert (Hloop : forall items acc,
      In item items -> exists e, cost_table_loop ar texts items acc = Raise e).
    { induction items as [|i items IH]; intros acc; [by intros []|].
      intros [->|Hi]; cbn [cost_table_loop].
      - rewrite Hstep. by eexists.
      - destruct (cost_item_step ar texts i acc) as [acc'|e]; cbn [rbind];
          [by apply IH | by eexists]. }
    by apply Hloop.
Qed.

End CostProps.

(** The texts of the cost table for [cost_input] and the built-in texts
    hold no angle bracket. *)
Lemma cost_input_texts_accepted :
  @cost_texts_accepted plain_builtins plain_markup ∅ cost_input.
Proof.
  intros item Hin. cbv [In cost_items_ordered_pdf] in Hin.
  repeat (destruct Hin as [<-|Hin];
          [split; [reflexivity | intros s; vm_compute; by intros [= <-]]|]).
  destruct Hin.
Qed.

(** The subtotal of [cost_input] is [0.0] and its row is in the table. *)
Lemma cost_table_zero_rows_witness :
  exists rows,
    @_prepare_cost_table_for_pdf plain_builtins plain_markup cost_input ∅
    = Ok rows /\
    In [ {| para_text := "Subtotal Netto"; para_style := "TableLabel" |};
         {| para_text := "0,00 €"; para_style := "TableBoldRight" |} ] rows.
Proof.
  refine (proj2 (proj2 (proj1 (proj2
    (@cost_table_zero_rows plain_builtins plain_markup ∅ cost_input
       ("subtotal_netto", "subtotal_netto", true, "TableBoldRight") _ _))
    _ _ _)) _ cost_input_texts_accepted).
  - cbv [In cost_items_ordered_pdf]. tauto.
  - reflexivity.
  - reflexivity.
  - reflexivity.
  - reflexivity.
  - intros key. unfold cost_input, dict_get.
    destruct (decide (key = "base_matrix_price_netto")) as [->|?]; [done|].
    destruct (decide (key = "cost_misc_netto")) as [->|?]; [done|].
    destruct (decide (key = "subtotal_netto")) as [->|?]; [done|].
    destruct (decide (key = "vat_rate_percent")) as [->|?]; [done|].
    rewrite !lookup_insert_ne by done. by rewrite lookup_singleton_ne.
Defined.

(** ** The chart gallery *)

Section ChartProps.
Context `{!ImageLib}.

(** An image block made from bytes carries those bytes. *)
Lemma image_flowable_data (b : string) (desired_width : spec_float)
    (texts : gmap string string) (max_height : option spec_float)
    (align : string) (d : string) (w h : spec_float) (a : string) :
  In (FImage d w h a)
     (_get_image_flowable (VBytes b) desired_width texts None max_height align) ->
  d = b.
Proof.
  unfold _get_image_flowable.
  destruct (negb _REPORTLAB_AVAILABLE); [by intros []|].
  cbn [image_bytes_of_input caption_placeholder caption_below].
  destruct (PyStr.is_empty b); [by intros []|].
  destruct (image_fit b desired_width max_height) as [[iw ih]|e];
    [|by intros []].
  intros [Heq|[]]. by injection Heq as ->.
Qed.

Lemma chart_step_gated (texts : gmap string string) (selected : list string)
    (ar : gmap string pyval) (width : spec_float)
    (state : list flowable * nat) (entry : string * string * string) :
  In entry charts_config_for_pdf_generator ->
  images_gated selected ar state.1 ->
  images_gated selected ar (chart_step texts selected ar width state entry).1.
Proof.
  destruct state as [story count]. destruct entry as [[key tk] dt].
  intros Hentry Hstory. unfold chart_step.
  destruct (in_list key selected) eqn:Hsel; cbn [negb]; [|exact Hstory].
  unfold dict_get.
  destruct (ar !! key) as [[| | | | |b|]|] eqn:Hkey; cbn [default from_option id];
    try exact Hstory.
  destruct (PyStr.is_empty b) eqn:Hb; [exact Hstory|].
  set (imgs := _get_image_flowable _ _ _ _ _ _).
  assert (Himgs : forall d w h a, In (FImage d w h a) imgs -> d = b).
  { intros d w h a. apply image_flowable_data. }
  assert (Hnew : forall d : string, d = b ->
    exists key' tk' dt',
      In (key', tk', dt') charts_config_for_pdf_generator /\
      in_list key' selected = true /\
      ar !! key' = Some (VBytes d) /\ d <> EmptyString).
  { intros d ->. exists key, tk, dt. repeat split; try done.
    intros ->. discriminate Hb. }
  clearbody imgs. destruct imgs as [|img rest]; cbn [fst]; intros d w h a Hin.
  - apply in_app_or in Hin as [Hin|Hin].
    + apply in_app_or in Hin as [Hin|Hin]; [by eapply Hstory|].
      destruct Hin as [Hin|[]]. discriminate Hin.
    + destruct Hin as [Hin|[Hin|[]]]; discriminate Hin.
  - apply in_app_or in Hin as [Hin|Hin].
    + apply in_app_or in Hin as [Hin|Hin]; [by eapply Hstory|].
      destruct Hin as [Hin|[]]. discriminate Hin.
    + apply in_app_or in Hin as [Hin|Hin].
      * eapply Hnew. by eapply Himgs.
      * destruct Hin as [Hin|[]]. discriminate Hin.
Qed.

Lemma chart_fold_gated (texts : gmap string string) (selected : list string)
    (ar : gmap string pyval) (width : spec_float)
    (entries : list (string * string * string))
    (state : list flowable * nat) :
  (forall entry, In entry entries -> In entry charts_config_for_pdf_generator) ->
  images_gated selected ar state.1 ->
  images_gated selected ar
    (fold_left (chart_step texts selected ar width) entries state).1.
Proof.
  revert state. induction entries as [|entry entries IH]; intros state Hsub Hst.
  - exact Hst.
  - simpl. apply IH.
    + intros e He. apply Hsub. by right.
    + apply chart_step_gated; [apply Hsub; by left | exact Hst].
Qed.

(** C4: in the Visualizations section every image block carries the bytes
    that [AnalysisResults] holds for a chart key of the catalog which is in
    the selected list; and a turn of the loop for a key that is not
    selected, or whose entry is [None] or absent, adds nothing to the story
    and does not count as a rendered chart. *)
Theorem chart_selection_gating (texts : gmap string string)
    (selected : list string) (ar : gmap string pyval) (width : spec_float) :
  (forall d w h a,
      In (FImage d w h a) (visualizations_section texts selected ar width) ->
      exists key title_key default_title,
        In (key, title_key, default_title) charts_config_for_pdf_generator /\
        in_list key selected = true /\
        ar !! key = Some (VBytes d) /\ d <> EmptyString) /\
  (forall entry state,
      in_list entry.1.1 selected = false ->
      chart_step texts selected ar width state entry = state) /\
  (forall entry state,
      dict_get ar entry.1.1 = VNone ->
      chart_step texts selected ar width state entry = state).
Proof.
  split; [|split].
  - unfold visualizations_section.
    set (intro := [FParagraph _; FSpacer _ _]).
    pose proof (chart_fold_gated texts selected ar width
                  charts_config_for_pdf_generator (intro, 0%nat)
                  (fun _ Hin => Hin)) as Hfold.
    destruct (fold_left _ _ _) as [story count].
    assert (Hstory : images_gated selected ar story).
    { apply Hfold. intros d w h a [Hin|[Hin|[]]]; discriminate Hin. }
    intros d w h a Hin. apply (Hstory d w h a).
    destruct count, selected; try exact Hin;
      apply in_app_or in Hin as [Hin|[Hin|[]]]; try exact Hin;
      discriminate Hin.
  - intros [[key tk] dt] [story count] Hsel. unfold chart_step.
    cbn [fst] in Hsel. by rewrite Hsel.
  - intros [[key tk] dt] [story count] Hnone. unfold chart_step.
    cbn [fst] in Hnone. rewrite Hnone. by destruct (in_list key selected).
Qed.

End ChartProps.

(** With [charts_input] and [charts_selected]: the chart that is not
    selected and the chart whose entry is [None] add nothing, and the
    only image of the section is the selected chart with bytes. *)
Lemma chart_selection_gating_witness :
  @chart_step plain_images ∅ charts_selected charts_input page_width ([], 0%nat)
    ("amortisation_chart_bytes", "pdf_chart_label_pvvis_amort",
     "PV Visuals: Amortisation") = ([], 0%nat) /\
  @chart_step plain_images ∅ charts_selected charts_input page_width ([], 0%nat)
    ("cost_projection_chart_bytes", "pdf_chart_label_cost_projection",
     "Stromkosten-Hochrechnung (2D)") = ([], 0%nat) /\
  List.filter (fun fl => match fl with FImage _ _ _ _ => true | _ => false end)
    (@visualizations_section plain_images ∅ charts_selected charts_input
       page_width)
  = [ FImage "PNG-1" (S754_finite false 7978818237467413 (-44))
        (S754_finite false 5984113678100560 (-44)) "CENTER" ].
Proof.
  pose proof (@chart_selection_gating plain_images ∅ charts_selected
                charts_input page_width) as (_ & Hunselected & Hnone).
  split; [|split].
  - apply Hunselected. reflexivity.
  - apply Hnone. reflexivity.
  - reflexivity.
Defined.

(** ** The appendix merge *)

Section MergeProps.
Context `{!PdfEnv}.

Lemma append_datasheets_app (ps1 ps2 : list string) (w : list pdf_page) :
  append_datasheets (ps1 ++ ps2) w
  = append_datasheets ps2 (append_datasheets ps1 w).
Proof.
  revert w. induction ps1 as [|p ps1 IH]; intros w; simpl; [done|apply IH].
Qed.

(** C8: the merge does not damage the base document.  For base bytes that
    are not empty the bytes returned are the base bytes when
    [include_all_documents] is false, when pypdf is not available, when no
    path is collected, when the base bytes cannot be read back, and when
    the merged document cannot be written.  A file that cannot be opened
    adds no page: the writer holds the pages it would hold without that
    file, and the merge returns the same bytes as without it. *)
Theorem appendix_merge_keeps_base (main_pdf_bytes : string)
    (include_all_documents_opt : bool) (pv_details_pdf : gmap string pyval)
    (ids : list Z) (active_company_id : option Z) :
  main_pdf_bytes <> EmptyString ->
  let merged :=
    generate_offer_pdf_appendix main_pdf_bytes include_all_documents_opt
      pv_details_pdf ids active_company_id in
  (include_all_documents_opt = false -> merged = Ok (Some main_pdf_bytes)) /\
  (_PYPDF_AVAILABLE = false -> merged = Ok (Some main_pdf_bytes)) /\
  (collect_paths_to_append pv_details_pdf ids active_company_id = Ok [] ->
   merged = Ok (Some main_pdf_bytes)) /\
  (forall paths e,
      collect_paths_to_append pv_details_pdf ids active_company_id = Ok paths ->
      (PdfReader_pages (FromBytes main_pdf_bytes)).2 = Some e ->
      merged = Ok (Some main_pdf_bytes)) /\
  (forall paths pages e,
      PdfReader_pages (FromBytes main_pdf_bytes) = (pages, None) ->
      PdfWriter_write (append_datasheets paths pages) = Raise e ->
      merge_with_paths main_pdf_bytes paths = main_pdf_bytes) /\
  (forall before bad after e,
      PdfReader_pages (FromPath bad) = ([], Some e) ->
      (forall w, append_datasheets (before ++ bad :: after) w
                 = append_datasheets (before ++ after) w) /\
      merge_with_paths main_pdf_bytes (before ++ bad :: after)
      = merge_with_paths main_pdf_bytes (before ++ after)).
Proof.
  intros Hne merged. subst merged. unfold generate_offer_pdf_appendix.
  assert (Hempty : PyStr.is_empty main_pdf_bytes = false)
    by (by destruct main_pdf_bytes).
  rewrite Hempty.
  split; [|split; [|split; [|split; [|split]]]].
  - by intros ->.
  - intros ->. by rewrite andb_false_r.
  - intros ->. by destruct (negb _).
  - intros paths e -> Hread. destruct (negb _); [done|]. simpl.
    destruct paths as [|p paths]; [done|].
    unfold merge_with_paths.
    destruct (PdfReader_pages (FromBytes main_pdf_bytes)) as [pages [e'|]];
      [done|discriminate Hread].
  - intros paths pages e Hread Hwrite. unfold merge_with_paths.
    by rewrite Hread, Hwrite.
  - intros before bad after e Hbad.
    assert (Happ : forall w, append_datasheets (before ++ bad :: after) w
                             = append_datasheets (before ++ after) w).
    { intros w. rewrite !append_datasheets_app. simpl.
      by rewrite Hbad, app_nil_r. }
    split; [exact Happ|].
    unfold merge_with_paths.
    destruct (PdfReader_pages (FromBytes main_pdf_bytes)) as [pages [e'|]];
      [done|]. by rewrite Happ.
Qed.

End MergeProps.

(** A base document, and a module whose data sheet is ["a.pdf"]: with
    [include_all_documents] off the base comes back as it is; and
    ["bad.pdf"], which cannot be opened, leaves the pages of ["a.pdf"] and
    ["b.pdf"] in place. *)
Lemma appendix_merge_keeps_base_witness :
  @generate_offer_pdf_appendix plain_pdf "BASE" false
    {[ "selected_module_id" := VStr "a.pdf" ]} [] None = Ok (Some "BASE") /\
  @merge_with_paths plain_pdf "BASE" ["a.pdf"; "bad.pdf"; "b.pdf"]
  = "BASEa.pdfb.pdf".
Proof.
  pose proof (@appendix_merge_keeps_base plain_pdf "BASE" false
                {[ "selected_module_id" := VStr "a.pdf" ]} [] None
                ltac:(discriminate)) as (Hoff & _ & _ & _ & _ & Hskip).
  split.
  - apply Hoff. reflexivity.
  - exact (eq_trans (proj2 (Hskip ["a.pdf"] "bad.pdf" ["b.pdf"] OSError eq_refl))
             eq_refl).
Defined.

